(** * sd-watcher-afk: the AFK state machine, its settings and the input listeners

    A shallow embedding of [sd_watcher_afk/afk.py], [sd_watcher_afk/config.py]
    and [sd_watcher_afk/listeners.py].

    Modelling choices, all visible in the definitions below:
    - a Python number (the [float] returned by [seconds_since_last_input],
      the [int] or [float] of a setting) is a rational [Q]; comparisons are
      the exact ones, so floating-point rounding is outside the model;
    - a [datetime] is the number of microseconds since the epoch, a
      [timedelta] a number of microseconds, both in [Z] and unbounded (the
      [OverflowError] of [datetime] outside years 1..9999 is outside the model);
    - a dict is a [gmap] with string keys; subscripting a plain dict at an
      absent key raises [KeyError], a [defaultdict(int)] reads 0 there;
    - Python exceptions are values of [exn], fallible code returns [result];
    - the polling loop never returns by itself: it is run against a finite
      script of what the outside world does at each tick (parent pid, clock,
      idle sample, faults of the client and of [sleep]) and reports
      [Running] when the script is exhausted. *)

From Stdlib Require Import ZArith QArith Qround Lia.
From stdpp Require Import gmap strings list fin_maps.

Open Scope Z_scope.

(** ** Exceptions and fallible computations *)

Inductive exn : Type :=
  | KeyboardInterrupt
  | AssertionError
  | KeyError (key : string)
  | OtherException (name : string).

Inductive result (A : Type) : Type :=
  | Return (a : A)
  | Raise (e : exn).

Arguments Return {A} a.
Arguments Raise {A} e.

#[global] Instance result_ret : MRet result := fun A a => Return a.

#[global] Instance result_bind : MBind result := fun A B f m =>
  match m with
  | Return a => f a
  | Raise e => Raise e
  end.

(** [d[k]] on a plain dict. *)
Definition getitem {V : Type} (d : gmap string V) (k : string) : result V :=
  match d !! k with
  | Some v => Return v
  | None => Raise (KeyError k)
  end.

(** ** Numbers *)

(** [x < y] on Python numbers. *)
Definition Qltb (x y : Q) : bool := negb (Qle_bool y x).

(** Truthiness of an optional number: [None], [0] and [0.0] are falsy. *)
Definition truthy (x : option Q) : bool :=
  match x with
  | None => false
  | Some q => negb (Qeq_bool q 0)
  end.

(** [x or d]: [d] is evaluated only when [x] is falsy. *)
Definition py_or (x : option Q) (d : result Q) : result Q :=
  match x with
  | Some q => if truthy x then Return q else d
  | None => d
  end.

(** ** config.py *)

Definition section_of (timeout poll_time : Q) : gmap string Q :=
  <["timeout" := timeout]> (<["poll_time" := poll_time]> ∅).

(** The tables of [default_config]. *)
Definition default_config : gmap string (gmap string Q) :=
  <["sd-watcher-afk" := section_of 300 5]>
    (<["sd-watcher-afk-testing" := section_of 20 1]> ∅).

(** [load_config(testing)]; [toml] is what the external
    [load_config_toml("sd-watcher-afk", default_config)] returned. *)
Definition load_config (toml : gmap string (gmap string Q)) (testing : bool)
  : result (gmap string Q) :=
  let section := "sd-watcher-afk" +:+ (if testing then "-testing" else "") in
  getitem toml section.

(** ** afk.py: Settings *)

Record Settings : Type := { timeout : Q; poll_time : Q }.

(** [Settings.__init__]: the two [or] fall-backs, then the [assert]
    (assertions are enabled: the interpreter does not run with [-O]). *)
Definition Settings_init (config_section : gmap string Q)
    (timeout poll_time : option Q) : result Settings :=
  t ← py_or timeout (getitem config_section "timeout");
  p ← py_or poll_time (getitem config_section "poll_time");
  if Qle_bool p t
  then Return {| timeout := t; poll_time := p |}
  else Raise AssertionError.

(** ** Time *)

(** Rounding to the nearest integer, ties to even, as [timedelta] rounds a
    fractional number of microseconds. *)
Definition round_half_even (q : Q) : Z :=
  let f := Qfloor q in
  match ((q - inject_Z f) ?= (1 # 2))%Q with
  | Lt => f
  | Gt => f + 1
  | Eq => if Z.even f then f else f + 1
  end.

(** [timedelta(seconds=s)], in microseconds. *)
Definition timedelta_seconds (s : Q) : Z := round_half_even (s * 1000000).

(** [td1ms = timedelta(milliseconds=1)]. *)
Definition td1ms : Z := 1000.

(** ** The client and its events *)

Record Event : Type := {
  timestamp : Z;
  duration : Q;
  data : gmap string string
}.

(** The calls the watcher makes on the external [ActivityWatchClient]. *)
Inductive ClientCall : Type :=
  | CreateBucket (bucket eventtype : string) (queued : bool)
  | Heartbeat (bucket : string) (e : Event) (pulsetime : Q) (queued : bool).

(** ** Platform selection at import time *)

Inductive System : Type := Windows | Darwin | Linux.

Definition select_platform (system : string) : result System :=
  if String.eqb system "Windows" then Return Windows
  else if String.eqb system "Darwin" then Return Darwin
  else if String.eqb system "Linux" then Return Linux
  else Raise (OtherException ("Unsupported platform: " +:+ system)).

(** ** What the outside world does during one tick *)

Record TickEnv : Type := {
  env_ppid : Z;                      (* os.getppid() *)
  env_now : Z;                       (* datetime.now(timezone.utc) *)
  env_sample : result Q;             (* seconds_since_last_input() *)
  env_heartbeat : list (option exn); (* client.heartbeat, call by call *)
  env_sleep : option exn             (* sleep(poll_time) *)
}.

(** ** The loop's state and its monad *)

Record LoopState : Type := {
  afk : bool;                  (* the local variable [afk] *)
  sent : list ClientCall;      (* calls accepted by the client in this tick *)
  faults : list (option exn)   (* what the next heartbeat calls will do *)
}.

Definition M (A : Type) : Type := LoopState -> result A * LoopState.

#[global] Instance M_ret : MRet M := fun A a st => (Return a, st).

#[global] Instance M_bind : MBind M := fun A B f m st =>
  match m st with
  | (Return a, st') => f a st'
  | (Raise e, st') => (Raise e, st')
  end.

Definition get_afk : M bool := fun st => (Return (afk st), st).

Definition set_afk (b : bool) : M unit := fun st =>
  (Return tt, {| afk := b; sent := sent st; faults := faults st |}).

Definition lift {A : Type} (r : result A) : M A := fun st => (r, st).

(** [self.client.heartbeat(bucket, e, pulsetime=..., queued=...)]: the
    call is recorded unless the world makes it raise. *)
Definition client_heartbeat (bucket : string) (e : Event) (pulsetime : Q)
    (queued : bool) : M unit := fun st =>
  match faults st with
  | Some x :: fs => (Raise x, {| afk := afk st; sent := sent st; faults := fs |})
  | None :: fs =>
      (Return tt, {| afk := afk st;
                     sent := sent st ++ [Heartbeat bucket e pulsetime queued];
                     faults := fs |})
  | [] =>
      (Return tt, {| afk := afk st;
                     sent := sent st ++ [Heartbeat bucket e pulsetime queued];
                     faults := [] |})
  end.

Definition sleep (fault : option exn) (seconds : Q) : M unit :=
  match fault with
  | Some x => lift (Raise x)
  | None => mret tt
  end.

(** ** afk.py: AFKWatcher *)

Record AFKWatcher : Type := { settings : Settings; bucketname : string }.

Record Args : Type := {
  args_timeout : option Q;
  args_poll_time : option Q
}.

(** [AFKWatcher.__init__]; [client_name] is the name the external client
    reports for itself. *)
Definition AFKWatcher_init (toml : gmap string (gmap string Q))
    (client_name : string) (args : Args) (testing : bool) : result AFKWatcher :=
  config_section ← load_config toml testing;
  s ← Settings_init config_section (args_timeout args) (args_poll_time args);
  mret {| settings := s; bucketname := client_name |}.

(** The event [ping] builds. *)
Definition ping_event (afk : bool) (timestamp : Z) (duration : option Q) : Event :=
  {| timestamp := timestamp;
     duration := default 0%Q duration;
     data := <["status" := if afk then "afk" else "not-afk"]>
               (<["app" := "afk"]> (<["title" := "Idle time"]> ∅)) |}.

(** [AFKWatcher.ping(afk, timestamp, duration=0)]. *)
Definition ping (self : AFKWatcher) (afk : bool) (timestamp : Z)
    (duration : option Q) : M unit :=
  let e := ping_event afk timestamp duration in
  let pulsetime := (timeout (settings self) + poll_time (settings self))%Q in
  client_heartbeat (bucketname self) e pulsetime true.

Inductive control : Type := Break | Continue.

Definition parent_died (system : System) (e : TickEnv) : bool :=
  match system with
  | Darwin | Linux => Z.eqb (env_ppid e) 1
  | Windows => false
  end.

(** The body of [while True: try: ...] in [heartbeat_loop]. *)
Definition loop_body (self : AFKWatcher) (system : System) (e : TickEnv)
  : M control :=
  if parent_died system e then mret Break
  else
    let now := env_now e in
    seconds_since_input ← lift (env_sample e);
    let last_input := now - timedelta_seconds seconds_since_input in
    afk ← get_afk;
    (if afk && Qltb seconds_since_input (timeout (settings self)) then
       ping self afk last_input None;;
       set_afk false;;
       afk ← get_afk;
       ping self afk (last_input + td1ms) None
     else if negb afk && Qle_bool (timeout (settings self)) seconds_since_input then
       ping self afk last_input None;;
       set_afk true;;
       afk ← get_afk;
       ping self afk now None
     else if afk then ping self afk now None
     else ping self afk last_input None);;
    sleep (env_sleep e) (poll_time (settings self));;
    mret Continue.

(** One tick started with the local variable [afk] at the given value:
    how the body ended, the value of [afk] then, the calls accepted. *)
Definition tick (self : AFKWatcher) (system : System) (afk0 : bool)
    (e : TickEnv) : result control * bool * list ClientCall :=
  let '(r, st) :=
    loop_body self system e
      {| afk := afk0; sent := []; faults := env_heartbeat e |} in
  (r, afk st, sent st).

Inductive exit_reason : Type := ParentDied | Interrupted.

(** How a run of the loop against a script ends: the script ran out and
    the loop is still polling, the loop reached one of its two [break]s,
    or an exception left it. *)
Inductive loop_status : Type :=
  | Running (afk : bool)
  | Exited (r : exit_reason)
  | Propagated (e : exn).

(** [while True] with its [try ... except KeyboardInterrupt: break],
    started with [afk] at [afk0]; the second component lists, tick by
    tick, the value of [afk] at the end of the tick and the calls made. *)
Fixpoint heartbeat_loop_from (self : AFKWatcher) (system : System)
    (afk0 : bool) (envs : list TickEnv)
  : loop_status * list (bool * list ClientCall) :=
  match envs with
  | [] => (Running afk0, [])
  | e :: envs' =>
      match tick self system afk0 e with
      | (Return Continue, afk1, calls) =>
          let '(s, h) := heartbeat_loop_from self system afk1 envs' in
          (s, (afk1, calls) :: h)
      | (Return Break, afk1, calls) => (Exited ParentDied, [(afk1, calls)])
      | (Raise KeyboardInterrupt, afk1, calls) =>
          (Exited Interrupted, [(afk1, calls)])
      | (Raise x, afk1, calls) => (Propagated x, [(afk1, calls)])
      end
  end.

(** [heartbeat_loop]: [afk = False], then the loop. *)
Definition heartbeat_loop (self : AFKWatcher) (system : System)
    (envs : list TickEnv) : loop_status * list (bool * list ClientCall) :=
  heartbeat_loop_from self system false envs.

(** All client calls of a run, in order. *)
Definition client_log (h : list (bool * list ClientCall)) : list ClientCall :=
  concat (map snd h).

(** [run]: create the bucket, then loop. *)
Definition run (self : AFKWatcher) (system : System) (envs : list TickEnv)
  : loop_status * list ClientCall :=
  let '(s, h) := heartbeat_loop self system envs in
  (s, CreateBucket (bucketname self) "afkstatus" true :: client_log h).

(** [main]: build the watcher from the arguments and run it. *)
Definition main (toml : gmap string (gmap string Q)) (client_name : string)
    (args : Args) (testing : bool) (system : System) (envs : list TickEnv)
  : result (loop_status * list ClientCall) :=
  watcher ← AFKWatcher_init toml client_name args testing;
  mret (run watcher system envs).

(** The process: importing [afk.py] selects the idle source for the host
    platform or raises, then [main] runs. *)
Definition program (platform_system : string)
    (toml : gmap string (gmap string Q)) (client_name : string)
    (args : Args) (testing : bool) (envs : list TickEnv)
  : result (loop_status * list ClientCall) :=
  system ← select_platform platform_system;
  main toml client_name args testing system envs.

(** ** listeners.py *)

(** [EventFactory]: the flag [new_event] (a [threading.Event]), the dict
    [event_data], and the abstract method [_reset_data]. *)
Class EventFactory (L : Type) : Type := {
  new_event : L -> bool;
  set_new_event : bool -> L -> L;
  event_data : L -> gmap string Z;
  _reset_data : L -> L
}.

(** [EventFactory.next_event]: clear the flag, keep a reference to the
    current dict, rebind [event_data] to a fresh dict, return the old one. *)
Definition next_event {L : Type} `{EventFactory L} (self : L)
  : gmap string Z * L :=
  let self := set_new_event false self in
  let data := event_data self in
  let self := _reset_data self in
  (data, self).

(** [EventFactory.has_new_event]. *)
Definition has_new_event {L : Type} `{EventFactory L} (self : L) : bool :=
  new_event self.

(** [d[k] += v] on a [defaultdict(int)]. *)
Definition dd_add (d : gmap string Z) (k : string) (v : Z) : gmap string Z :=
  <[k := default 0 (d !! k) + v]> d.

Record KeyboardListener : Type := {
  kb_new_event : bool;
  kb_event_data : gmap string Z
}.

Definition keyboard_defaults : gmap string Z := <["presses" := 0]> ∅.

#[global] Instance KeyboardListener_factory : EventFactory KeyboardListener := {
  new_event := kb_new_event;
  set_new_event b self :=
    {| kb_new_event := b; kb_event_data := kb_event_data self |};
  event_data := kb_event_data;
  _reset_data self :=
    {| kb_new_event := kb_new_event self; kb_event_data := keyboard_defaults |}
}.

(** [KeyboardListener.__init__]. *)
Definition KeyboardListener_init : KeyboardListener :=
  _reset_data {| kb_new_event := false; kb_event_data := ∅ |}.

(** [KeyboardListener.on_press]: [+=] on a plain dict. *)
Definition on_press {K : Type} (self : KeyboardListener) (key : K)
  : result KeyboardListener :=
  presses ← getitem (kb_event_data self) "presses";
  mret {| kb_new_event := true;
          kb_event_data := <["presses" := presses + 1]> (kb_event_data self) |}.

(** [KeyboardListener.on_release]: [pass]. *)
Definition on_release {K : Type} (self : KeyboardListener) (key : K)
  : KeyboardListener := self.

Record MouseListener : Type := {
  ms_new_event : bool;
  ms_event_data : gmap string Z;
  pos : option (Z * Z)
}.

Definition mouse_defaults : gmap string Z :=
  <["clicks" := 0]> (<["deltaX" := 0]> (<["deltaY" := 0]>
    (<["scrollX" := 0]> (<["scrollY" := 0]> ∅)))).

#[global] Instance MouseListener_factory : EventFactory MouseListener := {
  new_event := ms_new_event;
  set_new_event b self :=
    {| ms_new_event := b; ms_event_data := ms_event_data self; pos := pos self |};
  event_data := ms_event_data;
  _reset_data self :=
    {| ms_new_event := ms_new_event self;
       ms_event_data := mouse_defaults;
       pos := pos self |}
}.

(** [MouseListener.__init__]. *)
Definition MouseListener_init : MouseListener :=
  _reset_data {| ms_new_event := false; ms_event_data := ∅; pos := None |}.

(** [MouseListener.on_move]; [not self.pos] holds only for [None], a pair
    being truthy whatever its components. *)
Definition on_move (self : MouseListener) (x y : Z) : MouseListener :=
  let newpos := (x, y) in
  let pos0 := match pos self with None => newpos | Some p => p end in
  let delta := (fst pos0 - fst newpos, snd pos0 - snd newpos) in
  let d := dd_add (ms_event_data self) "deltaX" (Z.abs (fst delta)) in
  let d := dd_add d "deltaY" (Z.abs (snd delta)) in
  {| ms_new_event := true; ms_event_data := d; pos := Some newpos |}.

(** [MouseListener.on_click]. *)
Definition on_click {B : Type} (self : MouseListener) (x y : Z) (button : B)
    (down : bool) : MouseListener :=
  if down then
    {| ms_new_event := true;
       ms_event_data := dd_add (ms_event_data self) "clicks" 1;
       pos := pos self |}
  else self.

(** [MouseListener.on_scroll]. *)
Definition on_scroll (self : MouseListener) (x y scrollx scrolly : Z)
  : MouseListener :=
  let d := dd_add (ms_event_data self) "scrollX" (Z.abs scrollx) in
  let d := dd_add d "scrollY" (Z.abs scrolly) in
  {| ms_new_event := true; ms_event_data := d; pos := pos self |}.

(** The callbacks the input hooks deliver. *)
Inductive KeyboardCallback : Type := Press | Release.

Inductive MouseCallback : Type :=
  | Move (x y : Z)
  | Click (x y : Z) (down : bool)
  | Scroll (x y scrollx scrolly : Z).

Definition keyboard_callback (self : KeyboardListener) (c : KeyboardCallback)
  : result KeyboardListener :=
  match c with
  | Press => on_press self tt
  | Release => Return (on_release self tt)
  end.

Definition mouse_callback (self : MouseListener) (c : MouseCallback)
  : MouseListener :=
  match c with
  | Move x y => on_move self x y
  | Click x y down => on_click self x y tt down
  | Scroll x y sx sy => on_scroll self x y sx sy
  end.

(** A burst of callbacks, delivered one after the other. *)
Fixpoint keyboard_burst (self : KeyboardListener) (cs : list KeyboardCallback)
  : result KeyboardListener :=
  match cs with
  | [] => Return self
  | c :: cs' => self' ← keyboard_callback self c; keyboard_burst self' cs'
  end.

Definition mouse_burst (self : MouseListener) (cs : list MouseCallback)
  : MouseListener :=
  fold_left mouse_callback cs self.

(** * Vocabulary of the properties *)

(** ** Undisturbed ticks *)

(** The first [n] heartbeat calls of the tick do not raise. *)
Definition no_fault (n : nat) (fs : list (option exn)) : bool :=
  forallb (fun f => match f with None => true | Some _ => false end)
          (firstn n fs).

(** The parent is alive, the idle source returns [s], the first [n]
    heartbeat calls and the sleep return normally. *)
Definition undisturbed (n : nat) (system : System) (e : TickEnv) (s : Q) : Prop :=
  parent_died system e = false /\
  env_sample e = Return s /\
  no_fault n (env_heartbeat e) = true /\
  env_sleep e = None.

(** The call [ping(afk, timestamp)] makes on the client. *)
Definition ping_call (self : AFKWatcher) (afk : bool) (timestamp : Z) : ClientCall :=
  Heartbeat (bucketname self) (ping_event afk timestamp None)
    (timeout (settings self) + poll_time (settings self)) true.

(** [lastInputTime]: [now - timedelta(seconds=seconds_since_input)]. *)
Definition last_input (e : TickEnv) (s : Q) : Z :=
  env_now e - timedelta_seconds s.

(** Whether the sample [s] makes the machine leave the state [afk0]. *)
Definition transition_due (self : AFKWatcher) (afk0 : bool) (s : Q) : bool :=
  (afk0 && Qltb s (timeout (settings self)))
  || (negb afk0 && Qle_bool (timeout (settings self)) s).

(** What the call reports: its status string and its timestamp. *)
Definition call_status (c : ClientCall) : option string :=
  match c with
  | Heartbeat _ e _ _ => data e !! "status"
  | CreateBucket _ _ _ => None
  end.

Definition call_timestamp (c : ClientCall) : option Z :=
  match c with
  | Heartbeat _ e _ _ => Some (timestamp e)
  | CreateBucket _ _ _ => None
  end.

Ltac unfold_tick :=
  cbv [tick loop_body mbind mret M_bind M_ret lift get_afk set_afk ping
       client_heartbeat sleep afk sent faults andb negb].

Ltac split_faults H :=
  match type of H with
  | no_fault _ ?fs = true =>
      let f1 := fresh "f" in let f2 := fresh "f" in let fs' := fresh "fs" in
      destruct fs as [|[f1|] [|[f2|] fs']]; cbn in H; try discriminate H
  end.

(** How the loop ends on an exception: [except KeyboardInterrupt: break]
    and nothing for the others. *)
Definition status_of_exn (x : exn) : loop_status :=
  match x with
  | KeyboardInterrupt => Exited Interrupted
  | _ => Propagated x
  end.

(** ** Concrete worlds *)

Definition scenario_watcher : AFKWatcher :=
  {| settings := {| timeout := 300; poll_time := 5 |};
     bucketname := "sd-watcher-afk" |}.

(** A tick in which nothing goes wrong. *)
Definition quiet_env (ppid now : Z) (s : Q) : TickEnv :=
  {| env_ppid := ppid; env_now := now; env_sample := Return s;
     env_heartbeat := []; env_sleep := None |}.

(** ** Faulty ticks *)

(** Where an exception [x] can come from during the tick run in state
    [afk0]: the idle source, the first heartbeat, the second heartbeat of
    a transition, or the sleep that ends the tick. *)
Inductive raises_in_tick (self : AFKWatcher) (afk0 : bool) (e : TickEnv)
    (x : exn) : Prop :=
  | sample_raises :
      env_sample e = Raise x -> raises_in_tick self afk0 e x
  | first_heartbeat_raises (s : Q) (fs : list (option exn)) :
      env_sample e = Return s ->
      env_heartbeat e = Some x :: fs ->
      raises_in_tick self afk0 e x
  | second_heartbeat_raises (s : Q) (fs : list (option exn)) :
      env_sample e = Return s ->
      transition_due self afk0 s = true ->
      env_heartbeat e = None :: Some x :: fs ->
      raises_in_tick self afk0 e x
  | sleep_raises (s : Q) :
      env_sample e = Return s ->
      no_fault 2 (env_heartbeat e) = true ->
      env_sleep e = Some x ->
      raises_in_tick self afk0 e x.

Definition failing_sample_env : TickEnv :=
  {| env_ppid := 4242; env_now := 1000000000;
     env_sample := Raise (OtherException "OSError");
     env_heartbeat := []; env_sleep := None |}.

Definition failing_heartbeat_env : TickEnv :=
  {| env_ppid := 4242; env_now := 1000000000;
     env_sample := Return 0%Q;
     env_heartbeat := [Some (OtherException "ConnectionError")];
     env_sleep := None |}.

Definition interrupted_sleep_env : TickEnv :=
  {| env_ppid := 4242; env_now := 1000000000;
     env_sample := Return 0%Q;
     env_heartbeat := [];
     env_sleep := Some KeyboardInterrupt |}.

(** * The idle sources *)

(** ** unix.py *)

(** [timedelta.total_seconds()], the timedelta being in microseconds. *)
Definition total_seconds (td : Z) : Q := inject_Z td / 1000000.

Record LastInputUnix : Type := {
  mouseListener : MouseListener;
  keyboardListener : KeyboardListener;
  last_activity : Z                 (* a naive [datetime.now()] *)
}.

(** [LastInputUnix.__init__]; [now] is the clock at construction. *)
Definition LastInputUnix_init (now : Z) : LastInputUnix :=
  {| mouseListener := MouseListener_init;
     keyboardListener := KeyboardListener_init;
     last_activity := now |}.

(** [LastInputUnix.seconds_since_last_input]; [now] is the clock read at
    the start of the call. *)
Definition LastInputUnix_seconds_since_last_input (self : LastInputUnix)
    (now : Z) : Q * LastInputUnix :=
  if has_new_event (mouseListener self)
     || has_new_event (keyboardListener self)
  then
    let last := now in
    let mouse := snd (next_event (mouseListener self)) in
    let keyboard := snd (next_event (keyboardListener self)) in
    (total_seconds (now - last),
     {| mouseListener := mouse; keyboardListener := keyboard;
        last_activity := last |})
  else (total_seconds (now - last_activity self), self).

(** The module-level [seconds_since_last_input] of unix.py with its global
    [_last_input_unix]: the instance is built on the first call, when the
    clock reads [ctor_now], and used from then on. *)
Definition unix_seconds_since_last_input (_last_input_unix : option LastInputUnix)
    (ctor_now now : Z) : Q * option LastInputUnix :=
  let instance :=
    match _last_input_unix with
    | None => LastInputUnix_init ctor_now
    | Some u => u
    end in
  let '(s, instance) := LastInputUnix_seconds_since_last_input instance now in
  (s, Some instance).

(** ** windows.py *)

(** [_getLastInputTick]: [api_result] is what [GetLastInputInfo] returned,
    [dwTime] the tick it wrote. *)
Definition _getLastInputTick (api_result dwTime : Z) : result Z :=
  if Z.eqb 0 api_result then Raise AssertionError else Return dwTime.

(** [seconds_since_last_input] of windows.py; [tick_count] is what
    [GetTickCount] returned. *)
Definition windows_seconds_since_last_input (tick_count api_result dwTime : Z)
  : result Q :=
  last ← _getLastInputTick api_result dwTime;
  mret (inject_Z (tick_count - last) / 1000)%Q.

(** * The hook thread and the poll thread, one step at a time *)

Inductive KeyboardOp : Type :=
  | KbCallback (c : KeyboardCallback)
  | KbDrain.

Inductive MouseOp : Type :=
  | MsCallback (c : MouseCallback)
  | MsDrain.

(** Callbacks and [next_event] calls in the order they happen; the
    snapshots [next_event] returned are collected, oldest first. *)
Fixpoint keyboard_run (self : KeyboardListener) (ops : list KeyboardOp)
  : result (KeyboardListener * list (gmap string Z)) :=
  match ops with
  | [] => Return (self, [])
  | KbCallback c :: ops' =>
      self' ← keyboard_callback self c;
      keyboard_run self' ops'
  | KbDrain :: ops' =>
      let '(d, self') := next_event self in
      r ← keyboard_run self' ops';
      mret (fst r, d :: snd r)
  end.

Fixpoint mouse_run (self : MouseListener) (ops : list MouseOp)
  : MouseListener * list (gmap string Z) :=
  match ops with
  | [] => (self, [])
  | MsCallback c :: ops' => mouse_run (mouse_callback self c) ops'
  | MsDrain :: ops' =>
      let '(d, self') := next_event self in
      let r := mouse_run self' ops' in
      (fst r, d :: snd r)
  end.

(** * More vocabulary *)

(** The state a completed tick leaves the machine in. *)
Definition sample_is_afk (self : AFKWatcher) (s : Q) : bool :=
  Qle_bool (timeout (settings self)) s.

(** Heartbeats per tick along a sequence of states: two on a change. *)
Fixpoint beats_per_tick (prev : bool) (states : list bool) : list nat :=
  match states with
  | [] => []
  | cur :: states' =>
      (if Bool.eqb prev cur then 1%nat else 2%nat) :: beats_per_tick cur states'
  end.

(** The call is one [ping] of this watcher. *)
Definition is_ping (self : AFKWatcher) (c : ClientCall) : Prop :=
  exists (a : bool) (ts : Z), c = ping_call self a ts.

Definition is_running (s : loop_status) : bool :=
  match s with
  | Running _ => true
  | _ => false
  end.

(** Reading a counter of a snapshot, 0 when absent. *)
Definition counter (k : string) (d : gmap string Z) : Z := default 0 (d !! k).

Definition counter_sum (k : string) (snaps : list (gmap string Z)) : Z :=
  fold_right (fun d acc => counter k d + acc) 0 snaps.

Definition presses_in (ops : list KeyboardOp) : Z :=
  fold_right (fun op acc =>
                match op with KbCallback Press => 1 + acc | _ => acc end) 0 ops.

Definition is_press (c : KeyboardCallback) : bool :=
  match c with Press => true | Release => false end.

(** The callbacks that raise the mouse flag. *)
Definition wakes (c : MouseCallback) : bool :=
  match c with
  | Click _ _ false => false
  | _ => true
  end.

Definition clicks_in (ops : list MouseOp) : Z :=
  fold_right (fun op acc =>
                match op with
                | MsCallback (Click _ _ true) => 1 + acc
                | _ => acc
                end) 0 ops.

Definition scroll_in (axis : Z * Z -> Z) (ops : list MouseOp) : Z :=
  fold_right (fun op acc =>
                match op with
                | MsCallback (Scroll _ _ sx sy) => Z.abs (axis (sx, sy)) + acc
                | _ => acc
                end) 0 ops.

(** Distance travelled along one axis by the moves of [ops], starting
    from the position [p]; the first move ever travels nothing. *)
Fixpoint travel (axis : Z * Z -> Z) (p : option (Z * Z)) (ops : list MouseOp)
  : Z :=
  match ops with
  | [] => 0
  | MsCallback (Move x y) :: ops' =>
      match p with
      | None => 0
      | Some q => Z.abs (axis q - axis (x, y))
      end + travel axis (Some (x, y)) ops'
  | _ :: ops' => travel axis p ops'
  end.

(** The five counters of the mouse are present and not negative. *)
Definition mouse_counters_ok (d : gmap string Z) : Prop :=
  forall k, k ∈ ["clicks"; "deltaX"; "deltaY"; "scrollX"; "scrollY"] ->
            exists v, d !! k = Some v /\ 0 <= v.

(** * Properties *)

(** ** Comparisons *)

Lemma Qltb_lt (x y : Q) : Qltb x y = true <-> (x < y)%Q.
Proof.
  unfold Qltb. rewrite negb_true_iff.
  split.
  - intros H. apply Qnot_le_lt. intros Hle.
    apply Qle_bool_iff in Hle. congruence.
  - intros H. destruct (Qle_bool y x) eqn:E; [|reflexivity].
    apply Qle_bool_iff in E. exfalso. exact (Qlt_not_le _ _ H E).
Qed.

Lemma Qltb_ge (x y : Q) : Qltb x y = false <-> (y <= x)%Q.
Proof.
  unfold Qltb. rewrite negb_false_iff. apply Qle_bool_iff.
Qed.

Lemma Qle_bool_lt (x y : Q) : Qle_bool x y = false <-> (y < x)%Q.
Proof.
  rewrite <- Qltb_lt. unfold Qltb. rewrite negb_true_iff. reflexivity.
Qed.

(** ** Time *)

Lemma round_half_even_whole (q : Q) (z : Z) :
  (q == inject_Z z)%Q -> round_half_even q = z.
Proof.
  intros Hq. unfold round_half_even.
  rewrite (Qfloor_comp _ _ Hq), Qfloor_Z.
  assert (Hlt : (q - inject_Z z < 1 # 2)%Q).
  { rewrite Hq. unfold Qminus. rewrite Qplus_opp_r. reflexivity. }
  assert (Hc : Qcompare (q - inject_Z z) (1 # 2) = Lt)
    by (apply -> Qlt_alt; exact Hlt).
  rewrite Hc. reflexivity.
Qed.

(** A sample of a whole number of microseconds is subtracted exactly. *)
Lemma timedelta_seconds_micro (us : Z) :
  timedelta_seconds (inject_Z us / 1000000) = us.
Proof.
  unfold timedelta_seconds. apply round_half_even_whole.
  field.
Qed.

Lemma timedelta_seconds_whole (n : Z) :
  timedelta_seconds (inject_Z n) = n * 1000000.
Proof.
  unfold timedelta_seconds. apply round_half_even_whole.
  rewrite inject_Z_mult. reflexivity.
Qed.

(** ** One tick of an undisturbed world *)

Lemma tick_became_afk (self : AFKWatcher) (system : System) (e : TickEnv) (s : Q) :
  undisturbed 2 system e s ->
  (timeout (settings self) <= s)%Q ->
  tick self system false e =
    (Return Continue, true,
     [ping_call self false (last_input e s); ping_call self true (env_now e)]).
Proof.
  intros (Hpd & Hs & Hf & Hsl) Hle.
  apply Qle_bool_iff in Hle.
  unfold_tick. rewrite Hpd, Hs, Hle, Hsl.
  split_faults Hf; reflexivity.
Qed.

Lemma tick_no_longer_afk (self : AFKWatcher) (system : System) (e : TickEnv) (s : Q) :
  undisturbed 2 system e s ->
  (s < timeout (settings self))%Q ->
  tick self system true e =
    (Return Continue, false,
     [ping_call self true (last_input e s);
      ping_call self false (last_input e s + td1ms)]).
Proof.
  intros (Hpd & Hs & Hf & Hsl) Hlt.
  apply Qltb_lt in Hlt.
  unfold_tick. rewrite Hpd, Hs, Hlt, Hsl.
  split_faults Hf; reflexivity.
Qed.

Lemma tick_steady (self : AFKWatcher) (system : System) (afk0 : bool)
    (e : TickEnv) (s : Q) :
  undisturbed 1 system e s ->
  transition_due self afk0 s = false ->
  tick self system afk0 e =
    (Return Continue, afk0,
     [ping_call self afk0 (if afk0 then env_now e else last_input e s)]).
Proof.
  intros (Hpd & Hs & Hf & Hsl) Hno.
  unfold transition_due in Hno.
  unfold_tick. rewrite Hpd, Hs, Hsl.
  destruct afk0; cbv [andb negb orb] in Hno.
  - destruct (Qltb s (timeout (settings self))); [discriminate Hno|].
    destruct (env_heartbeat e) as [|[x|] fs]; cbn in Hf; try discriminate Hf;
      reflexivity.
  - rewrite Hno.
    destruct (env_heartbeat e) as [|[x|] fs]; cbn in Hf; try discriminate Hf;
      reflexivity.
Qed.

Lemma transition_due_false (self : AFKWatcher) (afk0 : bool) (s : Q) :
  transition_due self afk0 s = false <->
  (afk0 = true /\ (timeout (settings self) <= s)%Q) \/
  (afk0 = false /\ (s < timeout (settings self))%Q).
Proof.
  unfold transition_due. destruct afk0; cbv [andb negb orb].
  - destruct (Qltb s (timeout (settings self))) eqn:E.
    + apply Qltb_lt in E. split; [discriminate|].
      intros [[_ H]|[H _]]; [|discriminate H].
      exfalso. exact (Qlt_not_le _ _ E H).
    + apply Qltb_ge in E. split; auto.
  - rewrite Qle_bool_lt. intuition congruence.
Qed.

(** ** The loop *)

Lemma heartbeat_loop_from_cons (self : AFKWatcher) (system : System)
    (afk0 : bool) (e : TickEnv) (envs : list TickEnv) :
  heartbeat_loop_from self system afk0 (e :: envs) =
    match tick self system afk0 e with
    | (Return Continue, afk1, calls) =>
        (fst (heartbeat_loop_from self system afk1 envs),
         (afk1, calls) :: snd (heartbeat_loop_from self system afk1 envs))
    | (Return Break, afk1, calls) => (Exited ParentDied, [(afk1, calls)])
    | (Raise x, afk1, calls) => (status_of_exn x, [(afk1, calls)])
    end.
Proof.
  cbn [heartbeat_loop_from].
  destruct (tick self system afk0 e) as [[[[|]|x] afk1] calls]; try reflexivity.
  - destruct (heartbeat_loop_from self system afk1 envs); reflexivity.
  - destruct x; reflexivity.
Qed.

(** A run that is still polling after a prefix of the script goes on with
    the rest of the script from the state it reached. *)
Lemma heartbeat_loop_from_app (self : AFKWatcher) (system : System)
    (pre post : list TickEnv) :
  forall (afk0 afk1 : bool) (h : list (bool * list ClientCall)),
  heartbeat_loop_from self system afk0 pre = (Running afk1, h) ->
  heartbeat_loop_from self system afk0 (pre ++ post) =
    (fst (heartbeat_loop_from self system afk1 post),
     h ++ snd (heartbeat_loop_from self system afk1 post)).
Proof.
  induction pre as [|e pre IH]; intros afk0 afk1 h Hrun.
  - cbn in Hrun. injection Hrun as <- <-.
    cbn [app]. destruct (heartbeat_loop_from self system afk0 post); reflexivity.
  - rewrite <- app_comm_cons. rewrite heartbeat_loop_from_cons in *.
    destruct (tick self system afk0 e) as [[[[|]|x] a] calls].
    + discriminate Hrun.
    + injection Hrun as Hst Hh.
      assert (Hpre : heartbeat_loop_from self system a pre
                     = (Running afk1, snd (heartbeat_loop_from self system a pre))).
      { destruct (heartbeat_loop_from self system a pre); cbn in *; congruence. }
      rewrite (IH _ _ _ Hpre). cbn [fst snd]. rewrite <- Hh. reflexivity.
    + destruct x; discriminate Hrun.
Qed.

(** A tick that raises ends the run, whatever the script holds next. *)
Lemma heartbeat_loop_from_raise (self : AFKWatcher) (system : System)
    (afk0 afk1 : bool) (e : TickEnv) (rest : list TickEnv) (x : exn)
    (calls : list ClientCall) :
  tick self system afk0 e = (Raise x, afk1, calls) ->
  heartbeat_loop_from self system afk0 (e :: rest) =
    (status_of_exn x, [(afk1, calls)]).
Proof.
  intros H. rewrite heartbeat_loop_from_cons, H. reflexivity.
Qed.

Lemma tick_sample_fault (self : AFKWatcher) (system : System) (afk0 : bool)
    (e : TickEnv) (x : exn) :
  parent_died system e = false ->
  env_sample e = Raise x ->
  tick self system afk0 e = (Raise x, afk0, []).
Proof.
  intros Hpd Hs. unfold_tick. rewrite Hpd, Hs. reflexivity.
Qed.

Lemma tick_first_heartbeat_fault (self : AFKWatcher) (system : System)
    (afk0 : bool) (e : TickEnv) (s : Q) (x : exn) (fs : list (option exn)) :
  parent_died system e = false ->
  env_sample e = Return s ->
  env_heartbeat e = Some x :: fs ->
  tick self system afk0 e = (Raise x, afk0, []).
Proof.
  intros Hpd Hs Hf. unfold_tick. rewrite Hpd, Hs, Hf.
  destruct afk0.
  - destruct (Qltb s (timeout (settings self))); reflexivity.
  - destruct (Qle_bool (timeout (settings self)) s); reflexivity.
Qed.

Lemma tick_second_heartbeat_fault (self : AFKWatcher) (system : System)
    (afk0 : bool) (e : TickEnv) (s : Q) (x : exn) (fs : list (option exn)) :
  parent_died system e = false ->
  env_sample e = Return s ->
  transition_due self afk0 s = true ->
  env_heartbeat e = None :: Some x :: fs ->
  tick self system afk0 e =
    (Raise x, negb afk0, [ping_call self afk0 (last_input e s)]).
Proof.
  intros Hpd Hs Hdue Hf. unfold transition_due in Hdue.
  unfold_tick. rewrite Hpd, Hs, Hf.
  destruct afk0; cbv [andb negb orb] in Hdue.
  - destruct (Qltb s (timeout (settings self))); [reflexivity|discriminate Hdue].
  - rewrite Hdue. reflexivity.
Qed.

Lemma tick_sleep_fault (self : AFKWatcher) (system : System)
    (afk0 : bool) (e : TickEnv) (s : Q) (x : exn) :
  parent_died system e = false ->
  env_sample e = Return s ->
  no_fault 2 (env_heartbeat e) = true ->
  env_sleep e = Some x ->
  fst (fst (tick self system afk0 e)) = Raise x.
Proof.
  intros Hpd Hs Hf Hsl. unfold_tick. rewrite Hpd, Hs, Hsl.
  destruct afk0.
  - destruct (Qltb s (timeout (settings self))); split_faults Hf; reflexivity.
  - destruct (Qle_bool (timeout (settings self)) s); split_faults Hf; reflexivity.
Qed.

Lemma tick_parent_died (self : AFKWatcher) (system : System) (afk0 : bool)
    (e : TickEnv) :
  parent_died system e = true ->
  tick self system afk0 e = (Return Break, afk0, []).
Proof.
  intros Hpd. unfold_tick. rewrite Hpd. reflexivity.
Qed.

Lemma heartbeat_loop_from_snoc (self : AFKWatcher) (system : System)
    (pre : list TickEnv) (e : TickEnv) (afk0 afk1 afk2 : bool)
    (h : list (bool * list ClientCall)) (calls : list ClientCall) :
  heartbeat_loop_from self system afk0 pre = (Running afk1, h) ->
  tick self system afk1 e = (Return Continue, afk2, calls) ->
  heartbeat_loop_from self system afk0 (pre ++ [e]) =
    (Running afk2, h ++ [(afk2, calls)]).
Proof.
  intros Hpre Htick.
  rewrite (heartbeat_loop_from_app _ _ _ _ _ _ _ Hpre).
  rewrite heartbeat_loop_from_cons, Htick. reflexivity.
Qed.

Lemma quiet_env_undisturbed (n : nat) (system : System) (ppid now : Z) (s : Q) :
  ppid <> 1 -> undisturbed n system (quiet_env ppid now s) s.
Proof.
  intros Hp. repeat split.
  - destruct system; cbn; [reflexivity | | ]; apply Z.eqb_neq; exact Hp.
  - unfold no_fault. cbn. destruct n; reflexivity.
Qed.

(** ** Becoming AFK *)

(** C1, as stated, fails: with timeout 300 and a sample of 310 seconds in
    state NotAFK the tick does emit two heartbeats and moves to AFK, but
    the first heartbeat carries the status of the state being left,
    "not-afk", not "afk". *)
Lemma became_afk_first_status_cex :
  undisturbed 2 Linux (quiet_env 4242 1010000000 310) 310 /\
  (timeout (settings scenario_watcher) <= 310)%Q /\
  map call_status
      (snd (tick scenario_watcher Linux false (quiet_env 4242 1010000000 310)))
    = [Some "not-afk"; Some "afk"] /\
  map call_timestamp
      (snd (tick scenario_watcher Linux false (quiet_env 4242 1010000000 310)))
    = [Some 700000000; Some 1010000000] /\
  tick scenario_watcher Linux false (quiet_env 4242 1010000000 310)
    <> (Return Continue, true,
        [ping_call scenario_watcher true 700000000;
         ping_call scenario_watcher true 1010000000]).
Proof.
  split; [repeat split|].
  split; [apply Qle_bool_iff; reflexivity|].
  split; [vm_compute; reflexivity|].
  split; [vm_compute; reflexivity|].
  intros H. apply (f_equal (fun r => map call_status (snd r))) in H.
  vm_compute in H. discriminate H.
Qed.

(** C1 (amended): on a tick in state NotAFK whose sample is at least the
    timeout, the machine moves to AFK and the client receives exactly two
    heartbeats: the first with status "not-afk" (the state being left) and
    timestamp now - secondsSinceInput, the second with status "afk" and
    timestamp now; a run that was polling in NotAFK goes on polling in AFK. *)
Theorem became_afk_two_heartbeats (self : AFKWatcher) (system : System)
    (e : TickEnv) (s : Q) :
  undisturbed 2 system e s ->
  (timeout (settings self) <= s)%Q ->
  let c1 := ping_call self false (last_input e s) in
  let c2 := ping_call self true (env_now e) in
  tick self system false e = (Return Continue, true, [c1; c2]) /\
  call_status c1 = Some "not-afk" /\
  call_timestamp c1 = Some (env_now e - timedelta_seconds s) /\
  call_status c2 = Some "afk" /\
  call_timestamp c2 = Some (env_now e) /\
  forall pre afk0 h,
    heartbeat_loop_from self system afk0 pre = (Running false, h) ->
    heartbeat_loop_from self system afk0 (pre ++ [e]) =
      (Running true, h ++ [(true, [c1; c2])]).
Proof.
  intros Hu Hle c1 c2.
  pose proof (tick_became_afk self system e s Hu Hle) as Htick.
  repeat split; try exact Htick; try reflexivity.
  intros pre afk0 h Hpre.
  exact (heartbeat_loop_from_snoc _ _ _ _ _ _ _ _ _ Hpre Htick).
Qed.

Lemma became_afk_two_heartbeats_witness :
  undisturbed 2 Linux (quiet_env 4242 1010000000 310) 310 /\
  (timeout (settings scenario_watcher) <= 310)%Q /\
  tick scenario_watcher Linux false (quiet_env 4242 1010000000 310) =
    (Return Continue, true,
     [ping_call scenario_watcher false 700000000;
      ping_call scenario_watcher true 1010000000]).
Proof.
  assert (Hu : undisturbed 2 Linux (quiet_env 4242 1010000000 310) 310)
    by (repeat split).
  assert (Hle : (timeout (settings scenario_watcher) <= 310)%Q)
    by (apply Qle_bool_iff; reflexivity).
  split; [exact Hu|]. split; [exact Hle|].
  exact (proj1 (became_afk_two_heartbeats scenario_watcher Linux
                  (quiet_env 4242 1010000000 310) 310 Hu Hle)).
Defined.

(** ** Coming back *)

(** C2, as stated, fails: with timeout 300 and a sample of 0 seconds in
    state AFK the tick emits two heartbeats 1 ms apart and moves to
    NotAFK, but the first one carries the status "afk". *)
Lemma no_longer_afk_first_status_cex :
  undisturbed 2 Linux (quiet_env 4242 1020000000 0) 0 /\
  (0 < timeout (settings scenario_watcher))%Q /\
  map call_status
      (snd (tick scenario_watcher Linux true (quiet_env 4242 1020000000 0)))
    = [Some "afk"; Some "not-afk"] /\
  map call_timestamp
      (snd (tick scenario_watcher Linux true (quiet_env 4242 1020000000 0)))
    = [Some 1020000000; Some 1020001000] /\
  tick scenario_watcher Linux true (quiet_env 4242 1020000000 0)
    <> (Return Continue, false,
        [ping_call scenario_watcher false 1020000000;
         ping_call scenario_watcher false 1020001000]).
Proof.
  split; [repeat split|].
  split; [apply Qltb_lt; reflexivity|].
  split; [vm_compute; reflexivity|].
  split; [vm_compute; reflexivity|].
  intros H. apply (f_equal (fun r => map call_status (snd r))) in H.
  vm_compute in H. discriminate H.
Qed.

(** C2 (amended): on a tick in state AFK whose sample is below the
    timeout, the machine moves to NotAFK and the client receives exactly
    two heartbeats: the first with status "afk" (the state being left) and
    timestamp lastInputTime, the second with status "not-afk" and
    timestamp lastInputTime + 1 ms, so the second is later than the first
    by exactly one millisecond (1000 microseconds). *)
Theorem no_longer_afk_two_heartbeats (self : AFKWatcher) (system : System)
    (e : TickEnv) (s : Q) :
  undisturbed 2 system e s ->
  (s < timeout (settings self))%Q ->
  let c1 := ping_call self true (last_input e s) in
  let c2 := ping_call self false (last_input e s + td1ms) in
  tick self system true e = (Return Continue, false, [c1; c2]) /\
  call_status c1 = Some "afk" /\
  call_status c2 = Some "not-afk" /\
  (exists t1 t2,
     call_timestamp c1 = Some t1 /\ call_timestamp c2 = Some t2 /\
     t1 = env_now e - timedelta_seconds s /\ t2 - t1 = 1000 /\ t1 < t2) /\
  forall pre afk0 h,
    heartbeat_loop_from self system afk0 pre = (Running true, h) ->
    heartbeat_loop_from self system afk0 (pre ++ [e]) =
      (Running false, h ++ [(false, [c1; c2])]).
Proof.
  intros Hu Hlt c1 c2.
  pose proof (tick_no_longer_afk self system e s Hu Hlt) as Htick.
  split; [exact Htick|]. split; [reflexivity|]. split; [reflexivity|].
  split.
  - exists (last_input e s), (last_input e s + td1ms).
    unfold last_input, td1ms. repeat split; try reflexivity; lia.
  - intros pre afk0 h Hpre.
    exact (heartbeat_loop_from_snoc _ _ _ _ _ _ _ _ _ Hpre Htick).
Qed.

Lemma no_longer_afk_two_heartbeats_witness :
  undisturbed 2 Linux (quiet_env 4242 1020000000 0) 0 /\
  (0 < timeout (settings scenario_watcher))%Q /\
  tick scenario_watcher Linux true (quiet_env 4242 1020000000 0) =
    (Return Continue, false,
     [ping_call scenario_watcher true 1020000000;
      ping_call scenario_watcher false 1020001000]).
Proof.
  assert (Hu : undisturbed 2 Linux (quiet_env 4242 1020000000 0) 0)
    by (repeat split).
  assert (Hlt : (0 < timeout (settings scenario_watcher))%Q)
    by (apply Qltb_lt; reflexivity).
  split; [exact Hu|]. split; [exact Hlt|].
  exact (proj1 (no_longer_afk_two_heartbeats scenario_watcher Linux
                  (quiet_env 4242 1020000000 0) 0 Hu Hlt)).
Defined.

(** ** Faults during a tick *)

Lemma raises_in_tick_tick (self : AFKWatcher) (system : System) (afk0 : bool)
    (e : TickEnv) (x : exn) :
  parent_died system e = false ->
  raises_in_tick self afk0 e x ->
  fst (fst (tick self system afk0 e)) = Raise x.
Proof.
  intros Hpd [Hs | s fs Hs Hf | s fs Hs Hdue Hf | s Hs Hf Hsl].
  - rewrite (tick_sample_fault _ _ _ _ _ Hpd Hs). reflexivity.
  - rewrite (tick_first_heartbeat_fault _ _ _ _ _ _ _ Hpd Hs Hf). reflexivity.
  - rewrite (tick_second_heartbeat_fault _ _ _ _ _ _ _ Hpd Hs Hdue Hf).
    reflexivity.
  - exact (tick_sleep_fault _ _ _ _ _ _ Hpd Hs Hf Hsl).
Qed.

(** C3, as stated, fails: an [OSError] raised by the idle source, or a
    [ConnectionError] raised by the client, on the first tick of a script
    of two leaves the loop; the second tick never runs. *)
Lemma tick_fault_escapes_cex :
  heartbeat_loop scenario_watcher Linux
    [failing_sample_env; quiet_env 4242 1005000000 0]
    = (Propagated (OtherException "OSError"), [(false, [])]) /\
  heartbeat_loop scenario_watcher Linux
    [failing_heartbeat_env; quiet_env 4242 1005000000 0]
    = (Propagated (OtherException "ConnectionError"), [(false, [])]).
Proof.
  split; vm_compute; reflexivity.
Qed.

(** C3 (amended): the loop catches [KeyboardInterrupt] and nothing else.
    When, during a tick, the idle source, a heartbeat submission or the
    sleep raises [x], the tick is the last one of the run, whatever would
    have followed: a [KeyboardInterrupt] ends the loop through its
    [break], any other exception propagates out of the loop to the
    caller. *)
Theorem tick_fault_ends_loop (self : AFKWatcher) (system : System)
    (pre rest : list TickEnv) (e : TickEnv) (x : exn)
    (afk0 afk1 : bool) (h : list (bool * list ClientCall)) :
  heartbeat_loop_from self system afk0 pre = (Running afk1, h) ->
  parent_died system e = false ->
  raises_in_tick self afk1 e x ->
  exists last,
    heartbeat_loop_from self system afk0 (pre ++ e :: rest) =
      (match x with
       | KeyboardInterrupt => Exited Interrupted
       | _ => Propagated x
       end, h ++ [last]).
Proof.
  intros Hpre Hpd Hx.
  pose proof (raises_in_tick_tick self system afk1 e x Hpd Hx) as Ht.
  destruct (tick self system afk1 e) as [[r a] calls] eqn:E.
  cbn in Ht. subst r.
  exists (a, calls).
  rewrite (heartbeat_loop_from_app _ _ _ _ _ _ _ Hpre).
  rewrite (heartbeat_loop_from_raise _ _ _ _ _ rest _ _ E).
  reflexivity.
Qed.

Lemma tick_fault_ends_loop_witness :
  (exists last,
     heartbeat_loop scenario_watcher Linux
       ([quiet_env 4242 1000000000 0]
        ++ failing_sample_env :: [quiet_env 4242 1010000000 0])
     = (Propagated (OtherException "OSError"),
        [(false, [ping_call scenario_watcher false 1000000000])] ++ [last])) /\
  (exists last,
     heartbeat_loop scenario_watcher Linux
       ([] ++ interrupted_sleep_env :: [quiet_env 4242 1010000000 0])
     = (Exited Interrupted, [] ++ [last])).
Proof.
  split.
  - apply (tick_fault_ends_loop scenario_watcher Linux
             [quiet_env 4242 1000000000 0] [quiet_env 4242 1010000000 0]
             failing_sample_env (OtherException "OSError") false false).
    + reflexivity.
    + reflexivity.
    + apply sample_raises. reflexivity.
  - apply (tick_fault_ends_loop scenario_watcher Linux
             [] [quiet_env 4242 1010000000 0]
             interrupted_sleep_env KeyboardInterrupt false false).
    + reflexivity.
    + reflexivity.
    + apply (sleep_raises _ _ _ _ 0%Q); reflexivity.
Defined.

(** ** The scenario of five ticks *)

(** C4: with timeout 300 and poll time 5, started in NotAFK, the samples
    0, 0, 310, 310, 0 leave the machine in the states NotAFK, NotAFK, AFK,
    AFK, NotAFK after the successive ticks, with 1, 1, 2, 1 and 2
    heartbeats emitted; the loop is still polling afterwards. *)
Theorem scenario_five_ticks (system : System) (ppid : Z) (bucket : string)
    (n1 n2 n3 n4 n5 : Z) :
  ppid <> 1 ->
  let self := {| settings := {| timeout := 300; poll_time := 5 |};
                 bucketname := bucket |} in
  let r := heartbeat_loop self system
             [quiet_env ppid n1 0; quiet_env ppid n2 0; quiet_env ppid n3 310;
              quiet_env ppid n4 310; quiet_env ppid n5 0] in
  fst r = Running false /\
  map fst (snd r) = [false; false; true; true; false] /\
  map (fun t => length (snd t)) (snd r) = [1; 1; 2; 1; 2]%nat.
Proof.
  intros Hp self r. subst r. unfold heartbeat_loop.
  assert (U : forall n now s, undisturbed n system (quiet_env ppid now s) s)
    by (intros; apply quiet_env_undisturbed; exact Hp).
  rewrite heartbeat_loop_from_cons.
  rewrite (tick_steady self system false _ 0 (U _ _ _) eq_refl).
  rewrite heartbeat_loop_from_cons.
  rewrite (tick_steady self system false _ 0 (U _ _ _) eq_refl).
  rewrite heartbeat_loop_from_cons.
  rewrite (tick_became_afk self system _ 310 (U _ _ _))
    by (apply Qle_bool_iff; reflexivity).
  rewrite heartbeat_loop_from_cons.
  rewrite (tick_steady self system true _ 310 (U _ _ _) eq_refl).
  rewrite heartbeat_loop_from_cons.
  rewrite (tick_no_longer_afk self system _ 0 (U _ _ _))
    by (apply Qltb_lt; reflexivity).
  cbn. repeat split.
Qed.

Lemma scenario_five_ticks_witness :
  4242 <> 1 /\
  map fst
    (snd (heartbeat_loop scenario_watcher Linux
            [quiet_env 4242 1000000000 0; quiet_env 4242 1005000000 0;
             quiet_env 4242 1010000000 310; quiet_env 4242 1015000000 310;
             quiet_env 4242 1020000000 0]))
    = [false; false; true; true; false] /\
  map (fun t => length (snd t))
    (snd (heartbeat_loop scenario_watcher Linux
            [quiet_env 4242 1000000000 0; quiet_env 4242 1005000000 0;
             quiet_env 4242 1010000000 310; quiet_env 4242 1015000000 310;
             quiet_env 4242 1020000000 0]))
    = [1; 1; 2; 1; 2]%nat.
Proof.
  assert (Hp : 4242 <> 1) by lia.
  split; [exact Hp|].
  exact (proj2 (scenario_five_ticks Linux 4242 "sd-watcher-afk"
                  1000000000 1005000000 1010000000 1015000000 1020000000 Hp)).
Defined.

(** ** Ticks without a transition *)

Lemma heartbeat_loop_from_steady (self : AFKWatcher) (system : System)
    (afk0 : bool) (s : Q) (envs : list TickEnv) :
  transition_due self afk0 s = false ->
  Forall (fun e => undisturbed 1 system e s) envs ->
  heartbeat_loop_from self system afk0 envs =
    (Running afk0,
     map (fun e => (afk0, [ping_call self afk0
                             (if afk0 then env_now e else last_input e s)]))
         envs).
Proof.
  intros Hno Hall. induction Hall as [|e envs He _ IH].
  - reflexivity.
  - rewrite heartbeat_loop_from_cons, (tick_steady _ _ _ _ _ He Hno), IH.
    reflexivity.
Qed.

(** C5: on a tick that finds the machine AFK with a sample at or above
    the timeout, or NotAFK with a sample below it, the state is kept and
    exactly one heartbeat is emitted: status "afk" at timestamp now when
    AFK, status "not-afk" at timestamp lastInputTime when NotAFK; over any
    number of such ticks with the same sample the state never flips and
    each tick emits that one heartbeat. *)
Theorem steady_tick_one_heartbeat (self : AFKWatcher) (system : System)
    (afk0 : bool) (e : TickEnv) (s : Q) :
  undisturbed 1 system e s ->
  (afk0 = true /\ (timeout (settings self) <= s)%Q) \/
  (afk0 = false /\ (s < timeout (settings self))%Q) ->
  let beat := fun e' : TickEnv =>
    ping_call self afk0 (if afk0 then env_now e' else last_input e' s) in
  tick self system afk0 e = (Return Continue, afk0, [beat e]) /\
  call_status (beat e) = Some (if afk0 then "afk" else "not-afk") /\
  call_timestamp (beat e)
    = Some (if afk0 then env_now e else env_now e - timedelta_seconds s) /\
  forall envs,
    Forall (fun e' => undisturbed 1 system e' s) envs ->
    heartbeat_loop_from self system afk0 envs =
      (Running afk0, map (fun e' => (afk0, [beat e'])) envs).
Proof.
  intros Hu Hcase beat.
  apply transition_due_false in Hcase.
  split; [exact (tick_steady _ _ _ _ _ Hu Hcase)|].
  split; [destruct afk0; reflexivity|].
  split; [destruct afk0; reflexivity|].
  intros envs Hall. exact (heartbeat_loop_from_steady _ _ _ _ _ Hcase Hall).
Qed.

Lemma steady_tick_one_heartbeat_witness :
  undisturbed 1 Linux (quiet_env 4242 1015000000 310) 310 /\
  (timeout (settings scenario_watcher) <= 310)%Q /\
  tick scenario_watcher Linux true (quiet_env 4242 1015000000 310) =
    (Return Continue, true, [ping_call scenario_watcher true 1015000000]) /\
  heartbeat_loop_from scenario_watcher Linux true
    [quiet_env 4242 1015000000 310; quiet_env 4242 1020000000 310] =
    (Running true,
     [(true, [ping_call scenario_watcher true 1015000000]);
      (true, [ping_call scenario_watcher true 1020000000])]).
Proof.
  assert (Hu : forall now, undisturbed 1 Linux (quiet_env 4242 now 310) 310)
    by (intros; repeat split).
  assert (Hle : (timeout (settings scenario_watcher) <= 310)%Q)
    by (apply Qle_bool_iff; reflexivity).
  pose proof (steady_tick_one_heartbeat scenario_watcher Linux true
                (quiet_env 4242 1015000000 310) 310 (Hu _)
                (or_introl (conj eq_refl Hle))) as (Ht & _ & _ & Hl).
  split; [exact (Hu _)|]. split; [exact Hle|]. split; [exact Ht|].
  apply (Hl [quiet_env 4242 1015000000 310; quiet_env 4242 1020000000 310]).
  repeat constructor.
Defined.

(** ** Settings *)

Lemma py_or_zero (z : Q) (d : result Q) : (z == 0)%Q -> py_or (Some z) d = d.
Proof.
  intros Hz. unfold py_or, truthy.
  apply Qeq_bool_iff in Hz. rewrite Hz. reflexivity.
Qed.

Lemma py_or_nonzero (q : Q) (d : result Q) :
  ~ (q == 0)%Q -> py_or (Some q) d = Return q.
Proof.
  intros Hq. unfold py_or, truthy.
  destruct (Qeq_bool q 0) eqn:E; [|reflexivity].
  apply Qeq_bool_iff in E. contradiction.
Qed.

Lemma Settings_init_resolved (config_section : gmap string Q)
    (timeout_arg poll_time_arg : option Q) (t p : Q) :
  py_or timeout_arg (getitem config_section "timeout") = Return t ->
  py_or poll_time_arg (getitem config_section "poll_time") = Return p ->
  Settings_init config_section timeout_arg poll_time_arg =
    if Qle_bool p t then Return {| timeout := t; poll_time := p |}
    else Raise AssertionError.
Proof.
  intros Ht Hp. unfold Settings_init. rewrite Ht, Hp. reflexivity.
Qed.

(** C6: [timeout] and [pollTime] being the values the settings resolve to
    (an explicit non-zero argument, otherwise the configuration's value),
    construction raises [AssertionError] when timeout < pollTime, and then
    [main] raises too without creating the bucket or entering the loop;
    construction succeeds, with these two values, when
    timeout >= pollTime. *)
Theorem settings_require_timeout_ge_poll_time (config_section : gmap string Q)
    (timeout_arg poll_time_arg : option Q) (t p : Q) :
  py_or timeout_arg (getitem config_section "timeout") = Return t ->
  py_or poll_time_arg (getitem config_section "poll_time") = Return p ->
  ((t < p)%Q ->
     Settings_init config_section timeout_arg poll_time_arg
       = Raise AssertionError /\
     forall toml client_name testing system envs,
       load_config toml testing = Return config_section ->
       main toml client_name
            {| args_timeout := timeout_arg; args_poll_time := poll_time_arg |}
            testing system envs
         = Raise AssertionError) /\
  ((p <= t)%Q ->
     Settings_init config_section timeout_arg poll_time_arg
       = Return {| timeout := t; poll_time := p |}).
Proof.
  intros Ht Hp.
  pose proof (Settings_init_resolved _ _ _ _ _ Ht Hp) as Hinit.
  split.
  - intros Hlt. apply Qle_bool_lt in Hlt. rewrite Hlt in Hinit.
    split; [exact Hinit|].
    intros toml client_name testing system envs Hcfg.
    unfold main, AFKWatcher_init. cbn [args_timeout args_poll_time].
    rewrite Hcfg. cbn [mbind result_bind]. rewrite Hinit. reflexivity.
  - intros Hle. apply Qle_bool_iff in Hle. rewrite Hle in Hinit. exact Hinit.
Qed.

Lemma settings_require_timeout_ge_poll_time_witness :
  (Settings_init (section_of 300 5) (Some 5%Q) (Some 10%Q)
     = Raise AssertionError /\
   main default_config "sd-watcher-afk"
        {| args_timeout := Some 5%Q; args_poll_time := Some 10%Q |}
        false Linux [quiet_env 4242 1000000000 0]
     = Raise AssertionError) /\
  Settings_init (section_of 300 5) None None
    = Return {| timeout := 300; poll_time := 5 |}.
Proof.
  split.
  - destruct (settings_require_timeout_ge_poll_time (section_of 300 5)
                (Some 5%Q) (Some 10%Q) 5 10 eq_refl eq_refl) as [Hfail _].
    assert (Hlt : (5 < 10)%Q) by (apply Qltb_lt; reflexivity).
    destruct (Hfail Hlt) as [Hinit Hmain].
    split; [exact Hinit|].
    apply Hmain. reflexivity.
  - destruct (settings_require_timeout_ge_poll_time (section_of 300 5)
                None None 300 5 eq_refl eq_refl) as [_ Hok].
    apply Hok. apply Qle_bool_iff. reflexivity.
Defined.

(** C10: an explicit [timeout] (or [poll_time]) argument equal to zero is
    discarded by [or] and the configuration's value is used in its place;
    an explicit non-zero argument is used as it is. *)
Theorem zero_argument_falls_back_to_config (config_section : gmap string Q)
    (ct cp z t p : Q) :
  config_section !! "timeout" = Some ct ->
  config_section !! "poll_time" = Some cp ->
  (z == 0)%Q -> ~ (t == 0)%Q -> ~ (p == 0)%Q ->
  Settings_init config_section (Some z) (Some p)
    = (if Qle_bool p ct then Return {| timeout := ct; poll_time := p |}
       else Raise AssertionError) /\
  Settings_init config_section (Some t) (Some z)
    = (if Qle_bool cp t then Return {| timeout := t; poll_time := cp |}
       else Raise AssertionError) /\
  Settings_init config_section (Some z) (Some z)
    = Settings_init config_section None None /\
  Settings_init config_section (Some t) (Some p)
    = (if Qle_bool p t then Return {| timeout := t; poll_time := p |}
       else Raise AssertionError).
Proof.
  intros Hct Hcp Hz Ht Hp.
  assert (Gt : getitem config_section "timeout" = Return ct)
    by (unfold getitem; rewrite Hct; reflexivity).
  assert (Gp : getitem config_section "poll_time" = Return cp)
    by (unfold getitem; rewrite Hcp; reflexivity).
  repeat split.
  - apply Settings_init_resolved.
    + rewrite py_or_zero by exact Hz. exact Gt.
    + apply py_or_nonzero. exact Hp.
  - apply Settings_init_resolved.
    + apply py_or_nonzero. exact Ht.
    + rewrite py_or_zero by exact Hz. exact Gp.
  - unfold Settings_init. rewrite !py_or_zero by exact Hz. reflexivity.
  - apply Settings_init_resolved; apply py_or_nonzero; assumption.
Qed.

Lemma zero_argument_falls_back_to_config_witness :
  Settings_init (section_of 300 5) (Some 0%Q) (Some 10%Q)
    = Return {| timeout := 300; poll_time := 10 |} /\
  Settings_init (section_of 300 5) (Some 600%Q) (Some 0%Q)
    = Return {| timeout := 600; poll_time := 5 |} /\
  Settings_init (section_of 300 5) (Some 0%Q) (Some 0%Q)
    = Settings_init (section_of 300 5) None None /\
  Settings_init (section_of 300 5) (Some 600%Q) (Some 10%Q)
    = Return {| timeout := 600; poll_time := 10 |}.
Proof.
  apply (zero_argument_falls_back_to_config (section_of 300 5) 300 5 0 600 10).
  - reflexivity.
  - reflexivity.
  - reflexivity.
  - intros H. vm_compute in H. discriminate H.
  - intros H. vm_compute in H. discriminate H.
Defined.

(** ** The heartbeat emitter *)

(** C8: [ping(afk, timestamp, duration)] builds one event, with the given
    timestamp, the duration (0 when none is given) and the data
    [{status: "afk" | "not-afk", app: "afk", title: "Idle time"}], and
    hands it to the client's heartbeat operation for the watcher's bucket
    with pulsetime [timeout + poll_time] and [queued=True]; the client
    records exactly that one call unless it raises. *)
Theorem ping_submits_one_heartbeat (self : AFKWatcher) (afk0 : bool)
    (ts : Z) (d : option Q) (st : LoopState) :
  let e := ping_event afk0 ts d in
  let call := Heartbeat (bucketname self) e
                (timeout (settings self) + poll_time (settings self)) true in
  ping self afk0 ts d
    = client_heartbeat (bucketname self) e
        (timeout (settings self) + poll_time (settings self)) true /\
  timestamp e = ts /\
  duration e = match d with Some x => x | None => 0%Q end /\
  data e !! "status" = Some (if afk0 then "afk" else "not-afk") /\
  data e !! "app" = Some "afk" /\
  data e !! "title" = Some "Idle time" /\
  size (data e) = 3%nat /\
  sent (snd (ping self afk0 ts d st))
    = match faults st with
      | Some _ :: _ => sent st
      | _ => sent st ++ [call]
      end /\
  fst (ping self afk0 ts d st)
    = match faults st with
      | Some x :: _ => Raise x
      | _ => Return tt
      end.
Proof.
  intros e call. subst e call.
  split; [reflexivity|].
  split; [reflexivity|].
  split; [destruct d; reflexivity|].
  split; [destruct afk0; vm_compute; reflexivity|].
  split; [destruct afk0; vm_compute; reflexivity|].
  split; [destruct afk0; vm_compute; reflexivity|].
  split; [destruct afk0; vm_compute; reflexivity|].
  unfold ping, client_heartbeat.
  destruct (faults st) as [|[x|] fs]; split; reflexivity.
Qed.

(** ** The event accumulators *)

(** C7: for the keyboard and for the mouse accumulator, in any state,
    [next_event] returns the counters as they were, and afterwards
    [has_new_event] is false and every counter is back at its default:
    presses = 0, and clicks = deltaX = deltaY = scrollX = scrollY = 0. *)
Theorem next_event_drains_and_resets :
  (forall self : KeyboardListener,
     fst (next_event self) = event_data self /\
     has_new_event (snd (next_event self)) = false /\
     event_data (snd (next_event self)) = keyboard_defaults /\
     event_data (snd (next_event self)) !! "presses" = Some 0) /\
  (forall self : MouseListener,
     fst (next_event self) = event_data self /\
     has_new_event (snd (next_event self)) = false /\
     event_data (snd (next_event self)) = mouse_defaults /\
     event_data (snd (next_event self)) !! "clicks" = Some 0 /\
     event_data (snd (next_event self)) !! "deltaX" = Some 0 /\
     event_data (snd (next_event self)) !! "deltaY" = Some 0 /\
     event_data (snd (next_event self)) !! "scrollX" = Some 0 /\
     event_data (snd (next_event self)) !! "scrollY" = Some 0 /\
     pos (snd (next_event self)) = pos self).
Proof.
  split; intros [? ?]; repeat split.
Qed.

(** The keyboard scenario of the specification: press, release, press
    leaves two presses to drain. *)
Example keyboard_press_release_press :
  (self ← keyboard_burst KeyboardListener_init [Press; Release; Press];
   mret (has_new_event self, fst (next_event self) !! "presses"))
  = Return (true, Some 2).
Proof. vm_compute. reflexivity. Qed.

Lemma dd_add_lookup (d : gmap string Z) (k : string) (v : Z) :
  dd_add d k v !! k = Some (default 0 (d !! k) + v).
Proof. unfold dd_add. apply lookup_insert_eq. Qed.

Lemma dd_add_lookup_ne (d : gmap string Z) (k k' : string) (v : Z) :
  k <> k' -> dd_add d k v !! k' = d !! k'.
Proof. intros Hne. unfold dd_add. apply lookup_insert_ne. exact Hne. Qed.

(** C9: a fresh mouse accumulator that receives the moves (0,0), (3,4),
    (1,4) holds deltaX = 5 and deltaY = 4; in general a move adds to each
    counter the absolute value of the difference, on that axis, between
    the previous position and the new one. *)
Theorem mouse_moves_sum_absolute_deltas :
  let m := mouse_burst MouseListener_init [Move 0 0; Move 3 4; Move 1 4] in
  event_data m !! "deltaX" = Some 5 /\
  event_data m !! "deltaY" = Some 4 /\
  has_new_event m = true /\
  pos m = Some (1, 4) /\
  forall (flag : bool) (d : gmap string Z) (px py x y : Z),
    let before := {| ms_new_event := flag; ms_event_data := d;
                     pos := Some (px, py) |} in
    event_data (on_move before x y) !! "deltaX"
      = Some (default 0 (d !! "deltaX") + Z.abs (px - x)) /\
    event_data (on_move before x y) !! "deltaY"
      = Some (default 0 (d !! "deltaY") + Z.abs (py - y)) /\
    pos (on_move before x y) = Some (x, y).
Proof.
  intros m. subst m.
  split; [vm_compute; reflexivity|].
  split; [vm_compute; reflexivity|].
  split; [reflexivity|].
  split; [reflexivity|].
  intros flag d px py x y before. subst before.
  unfold on_move. cbn [event_data MouseListener_factory ms_event_data pos fst snd].
  split; [|split; [|reflexivity]].
  - rewrite dd_add_lookup_ne by discriminate. apply dd_add_lookup.
  - rewrite dd_add_lookup. rewrite dd_add_lookup_ne by discriminate.
    reflexivity.
Qed.

(** * Further properties of the state machine *)

Lemma undisturbed_weaken (system : System) (e : TickEnv) (s : Q) :
  undisturbed 2 system e s -> undisturbed 1 system e s.
Proof.
  intros (Hpd & Hs & Hf & Hsl). repeat split; try assumption.
  split_faults Hf; reflexivity.
Qed.

(** The calls of a tick that runs undisturbed from state [afk0]. *)
Lemma tick_undisturbed (self : AFKWatcher) (system : System) (afk0 : bool)
    (e : TickEnv) (s : Q) :
  undisturbed 2 system e s ->
  tick self system afk0 e =
    (Return Continue, sample_is_afk self s,
     if Bool.eqb afk0 (sample_is_afk self s)
     then [ping_call self afk0 (if afk0 then env_now e else last_input e s)]
     else [ping_call self afk0 (last_input e s);
           ping_call self (negb afk0)
             (if afk0 then last_input e s + td1ms else env_now e)]).
Proof.
  intros Hu. unfold sample_is_afk.
  destruct (Qle_bool (timeout (settings self)) s) eqn:E; destruct afk0; cbn.
  - apply (tick_steady self system true e s (undisturbed_weaken _ _ _ Hu)).
    apply transition_due_false. left. split; [reflexivity|].
    apply Qle_bool_iff. exact E.
  - apply tick_became_afk; [exact Hu|]. apply Qle_bool_iff. exact E.
  - apply tick_no_longer_afk; [exact Hu|]. apply Qle_bool_lt. exact E.
  - apply (tick_steady self system false e s (undisturbed_weaken _ _ _ Hu)).
    apply transition_due_false. right. split; [reflexivity|].
    apply Qle_bool_lt. exact E.
Qed.

(** X1: after a tick that completes, the machine is AFK exactly when the
    sample reached the timeout, whatever state it was in before; the tick
    emitted one heartbeat if the state was kept and two if it changed, and
    the last heartbeat of the tick carries the status of the new state. *)
Theorem tick_state_follows_sample (self : AFKWatcher) (system : System)
    (afk0 : bool) (e : TickEnv) (s : Q) :
  undisturbed 2 system e s ->
  exists calls last_call,
    tick self system afk0 e
      = (Return Continue, sample_is_afk self s, calls ++ [last_call]) /\
    length (calls ++ [last_call])
      = (if Bool.eqb afk0 (sample_is_afk self s) then 1%nat else 2%nat) /\
    call_status last_call
      = Some (if sample_is_afk self s then "afk" else "not-afk") /\
    Forall (fun c => call_status c = Some (if afk0 then "afk" else "not-afk"))
           calls.
Proof.
  intros Hu. rewrite (tick_undisturbed _ _ _ _ _ Hu).
  destruct (Bool.eqb afk0 (sample_is_afk self s)) eqn:E.
  - apply Bool.eqb_prop in E. rewrite <- E.
    eexists [], _. split; [reflexivity|]. split; [reflexivity|].
    split; [destruct afk0; reflexivity | constructor].
  - apply Bool.eqb_false_iff in E.
    eexists [_], _. split; [reflexivity|]. split; [reflexivity|].
    split.
    + destruct afk0, (sample_is_afk self s); try congruence; reflexivity.
    + repeat constructor.
Qed.

Lemma tick_state_follows_sample_witness :
  exists calls last_call,
    tick scenario_watcher Linux true (quiet_env 4242 1020000000 0)
      = (Return Continue, sample_is_afk scenario_watcher 0, calls ++ [last_call]) /\
    length (calls ++ [last_call])
      = (if Bool.eqb true (sample_is_afk scenario_watcher 0) then 1%nat else 2%nat) /\
    call_status last_call
      = Some (if sample_is_afk scenario_watcher 0 then "afk" else "not-afk") /\
    Forall (fun c => call_status c = Some "afk") calls.
Proof.
  apply (tick_state_follows_sample scenario_watcher Linux true
           (quiet_env 4242 1020000000 0) 0).
  repeat split.
Defined.

Lemma last_cons_default {A : Type} (l : list A) (a d : A) :
  List.last (a :: l) d = List.last l a.
Proof.
  revert a d. induction l as [|b l IH]; intros a d; [reflexivity|].
  change (List.last (a :: b :: l) d) with (List.last (b :: l) d).
  rewrite (IH b d), (IH b a). reflexivity.
Qed.

Lemma heartbeat_loop_from_undisturbed (self : AFKWatcher) (system : System)
    (envs : list TickEnv) (samples : list Q) :
  Forall2 (undisturbed 2 system) envs samples ->
  forall afk0,
    fst (heartbeat_loop_from self system afk0 envs)
      = Running (List.last (map (sample_is_afk self) samples) afk0) /\
    map fst (snd (heartbeat_loop_from self system afk0 envs))
      = map (sample_is_afk self) samples /\
    map (fun t => length (snd t)) (snd (heartbeat_loop_from self system afk0 envs))
      = beats_per_tick afk0 (map (sample_is_afk self) samples).
Proof.
  induction 1 as [|e s envs samples Hu _ IH]; intros afk0.
  - repeat split.
  - rewrite heartbeat_loop_from_cons, (tick_undisturbed _ _ _ _ _ Hu).
    destruct (IH (sample_is_afk self s)) as (H1 & H2 & H3).
    cbn [fst snd map beats_per_tick]. rewrite H1, H2, H3.
    split; [|split].
    + rewrite last_cons_default. reflexivity.
    + reflexivity.
    + f_equal. destruct (Bool.eqb afk0 (sample_is_afk self s)); reflexivity.
Qed.

(** X2: over any script of undisturbed ticks, the loop keeps polling, the
    state after each tick is AFK exactly when that tick's sample reached
    the timeout, and each tick emits one heartbeat, or two when its state
    differs from the state before it. *)
Theorem loop_states_follow_samples (self : AFKWatcher) (system : System)
    (envs : list TickEnv) (samples : list Q) :
  Forall2 (undisturbed 2 system) envs samples ->
  fst (heartbeat_loop self system envs)
    = Running (List.last (map (sample_is_afk self) samples) false) /\
  map fst (snd (heartbeat_loop self system envs))
    = map (sample_is_afk self) samples /\
  map (fun t => length (snd t)) (snd (heartbeat_loop self system envs))
    = beats_per_tick false (map (sample_is_afk self) samples).
Proof.
  intros Hall. exact (heartbeat_loop_from_undisturbed _ _ _ _ Hall false).
Qed.

Lemma loop_states_follow_samples_witness :
  map fst (snd (heartbeat_loop scenario_watcher Linux
                  [quiet_env 4242 1000000000 299; quiet_env 4242 1005000000 300;
                   quiet_env 4242 1010000000 1]))
    = [false; true; false] /\
  map (fun t => length (snd t))
      (snd (heartbeat_loop scenario_watcher Linux
              [quiet_env 4242 1000000000 299; quiet_env 4242 1005000000 300;
               quiet_env 4242 1010000000 1]))
    = [1; 2; 2]%nat.
Proof.
  apply (loop_states_follow_samples scenario_watcher Linux
           [quiet_env 4242 1000000000 299; quiet_env 4242 1005000000 300;
            quiet_env 4242 1010000000 1] [299%Q; 300%Q; 1%Q]).
  repeat constructor.
Defined.

(** ** Whatever the world does *)

Lemma tick_calls (self : AFKWatcher) (system : System) (afk0 : bool)
    (e : TickEnv) :
  Forall (is_ping self) (snd (tick self system afk0 e)) /\
  (length (snd (tick self system afk0 e)) <= 2)%nat.
Proof.
  unfold_tick.
  destruct (parent_died system e); [split; [constructor | cbn; lia]|].
  destruct (env_sample e) as [s|x]; [|split; [constructor | cbn; lia]].
  destruct afk0;
    [destruct (Qltb s (timeout (settings self)))
    |destruct (Qle_bool (timeout (settings self)) s)];
    destruct (env_heartbeat e) as [|[x|] [|[y|] fs]];
    destruct (env_sleep e);
    (split; [repeat constructor; eexists _, _; reflexivity | cbn; lia]).
Qed.

Lemma heartbeat_loop_from_calls (self : AFKWatcher) (system : System)
    (envs : list TickEnv) :
  forall afk0,
    Forall (fun t => Forall (is_ping self) (snd t) /\ (length (snd t) <= 2)%nat)
           (snd (heartbeat_loop_from self system afk0 envs)).
Proof.
  induction envs as [|e envs IH]; intros afk0; [constructor|].
  rewrite heartbeat_loop_from_cons.
  pose proof (tick_calls self system afk0 e) as Ht.
  destruct (tick self system afk0 e) as [[[[|]|x] a] calls]; cbn in Ht |- *.
  - constructor; [exact Ht | constructor].
  - constructor; [exact Ht | apply IH].
  - constructor; [exact Ht | constructor].
Qed.

(** X3: in every run of the loop, whatever the idle source, the client
    and the sleep do, each call that reaches the client is a [ping] of
    this watcher: a heartbeat on the watcher's own bucket, with duration
    0, pulsetime [timeout + poll_time] and queued delivery. *)
Theorem loop_calls_are_pings (self : AFKWatcher) (system : System)
    (afk0 : bool) (envs : list TickEnv) (c : ClientCall) :
  c ∈ client_log (snd (heartbeat_loop_from self system afk0 envs)) ->
  exists (a : bool) (ts : Z),
    c = Heartbeat (bucketname self)
          {| timestamp := ts; duration := 0;
             data := <["status" := if a then "afk" else "not-afk"]>
                       (<["app" := "afk"]> (<["title" := "Idle time"]> ∅)) |}
          (timeout (settings self) + poll_time (settings self)) true.
Proof.
  unfold client_log. intros Hin.
  apply list_elem_of_In, in_concat in Hin. destruct Hin as (calls & Hcalls & Hc).
  apply in_map_iff in Hcalls. destruct Hcalls as (t & <- & Ht).
  pose proof (heartbeat_loop_from_calls self system envs afk0) as Hall.
  rewrite Forall_forall in Hall.
  destruct (Hall t (proj2 (list_elem_of_In _ _) Ht)) as [Hp _].
  rewrite Forall_forall in Hp.
  exact (Hp c (proj2 (list_elem_of_In _ _) Hc)).
Qed.

Lemma loop_calls_are_pings_witness :
  exists (a : bool) (ts : Z),
    ping_call scenario_watcher true 1010000000
    = Heartbeat (bucketname scenario_watcher)
          {| timestamp := ts; duration := 0;
             data := <["status" := if a then "afk" else "not-afk"]>
                       (<["app" := "afk"]> (<["title" := "Idle time"]> ∅)) |}
          (timeout (settings scenario_watcher)
           + poll_time (settings scenario_watcher)) true.
Proof.
  apply (loop_calls_are_pings scenario_watcher Linux false
           [quiet_env 4242 1010000000 310]).
  vm_compute. apply list_elem_of_In. right. left. reflexivity.
Defined.

Lemma heartbeat_loop_from_length (self : AFKWatcher) (system : System)
    (envs : list TickEnv) :
  forall afk0,
    (length (snd (heartbeat_loop_from self system afk0 envs)) <= length envs)%nat /\
    (is_running (fst (heartbeat_loop_from self system afk0 envs)) = true ->
     length (snd (heartbeat_loop_from self system afk0 envs)) = length envs) /\
    (is_running (fst (heartbeat_loop_from self system afk0 envs)) = false ->
     (1 <= length (snd (heartbeat_loop_from self system afk0 envs)))%nat).
Proof.
  induction envs as [|e envs IH]; intros afk0.
  - cbn. repeat split; [lia | discriminate].
  - rewrite heartbeat_loop_from_cons.
    destruct (tick self system afk0 e) as [[[[|]|x] a] calls].
    + cbn. repeat split; [lia | discriminate | lia].
    + destruct (IH a) as (H1 & H2 & H3). cbn [fst snd length].
      repeat split; [lia | intros H; rewrite (H2 H); reflexivity | lia].
    + cbn [fst snd length]. repeat split; [lia | | lia].
      destruct x; discriminate.
Qed.

(** X4: the loop runs at most one tick per entry of the script, exactly
    one per entry while it is still polling and at least one when it has
    stopped, and no tick makes more than two heartbeat calls. *)
Theorem loop_ticks_bounded (self : AFKWatcher) (system : System)
    (afk0 : bool) (envs : list TickEnv) :
  let r := heartbeat_loop_from self system afk0 envs in
  (length (snd r) <= length envs)%nat /\
  (if is_running (fst r) then length (snd r) = length envs
   else (1 <= length (snd r))%nat) /\
  Forall (fun t => (length (snd t) <= 2)%nat) (snd r) /\
  (length (client_log (snd r)) <= 2 * length envs)%nat.
Proof.
  intros r. subst r.
  destruct (heartbeat_loop_from_length self system envs afk0) as (H1 & H2 & H3).
  pose proof (heartbeat_loop_from_calls self system envs afk0) as Hall.
  assert (Hlen : Forall (fun t : bool * list ClientCall => (length (snd t) <= 2)%nat)
                   (snd (heartbeat_loop_from self system afk0 envs))).
  { eapply Forall_impl; [exact Hall|]. cbn. tauto. }
  split; [exact H1|]. split.
  - destruct (is_running (fst (heartbeat_loop_from self system afk0 envs)));
      [apply H2 | apply H3]; reflexivity.
  - split; [exact Hlen|].
    unfold client_log.
    assert (Hsum : forall h : list (bool * list ClientCall),
               Forall (fun t => (length (snd t) <= 2)%nat) h ->
               (length (concat (map snd h)) <= 2 * length h)%nat).
    { induction 1 as [|t h Ht _ IHh]; cbn; [lia|].
      rewrite length_app. lia. }
    pose proof (Hsum _ Hlen). lia.
Qed.




(** X6: on Linux and macOS a tick that finds the parent pid equal to 1
    ends the loop at once, before the clock or the idle source is read and
    without any heartbeat; on Windows the parent pid is never looked at, so
    a tick with pid 1 runs exactly as with any other pid. *)
Theorem parent_death_stops_loop (self : AFKWatcher) (system : System)
    (afk0 : bool) (e : TickEnv) (rest : list TickEnv) :
  env_ppid e = 1 ->
  (system <> Windows ->
   heartbeat_loop_from self system afk0 (e :: rest)
     = (Exited ParentDied, [(afk0, [])])) /\
  (forall ppid,
     tick self Windows afk0 e
       = tick self Windows afk0
           {| env_ppid := ppid; env_now := env_now e;
              env_sample := env_sample e;
              env_heartbeat := env_heartbeat e;
              env_sleep := env_sleep e |}).
Proof.
  intros Hp. split.
  - intros Hsys. rewrite heartbeat_loop_from_cons.
    rewrite tick_parent_died; [reflexivity|].
    destruct system; cbn; [congruence | | ]; rewrite Hp; reflexivity.
  - intros ppid. reflexivity.
Qed.

Lemma parent_death_stops_loop_witness :
  heartbeat_loop_from scenario_watcher Linux true
    ({| env_ppid := 1; env_now := 1000000000;
        env_sample := Raise (OtherException "OSError");
        env_heartbeat := []; env_sleep := None |}
     :: [quiet_env 4242 1005000000 0])
  = (Exited ParentDied, [(true, [])]).
Proof.
  apply (parent_death_stops_loop scenario_watcher Linux true
           {| env_ppid := 1; env_now := 1000000000;
              env_sample := Raise (OtherException "OSError");
              env_heartbeat := []; env_sleep := None |}
           [quiet_env 4242 1005000000 0] eq_refl).
  discriminate.
Defined.


(** ** Timestamps *)

Lemma round_half_even_nonneg (q : Q) : (0 <= q)%Q -> 0 <= round_half_even q.
Proof.
  intros Hq. unfold round_half_even.
  assert (Hf : 0 <= Qfloor q).
  { change 0 with (Qfloor 0). apply Qfloor_resp_le. exact Hq. }
  destruct (Qcompare (q - inject_Z (Qfloor q)) (1 # 2));
    [destruct (Z.even (Qfloor q))| |]; lia.
Qed.

Lemma timedelta_seconds_nonneg (s : Q) : (0 <= s)%Q -> 0 <= timedelta_seconds s.
Proof.
  intros Hs. unfold timedelta_seconds. apply round_half_even_nonneg.
  apply Qmult_le_0_compat; [exact Hs | discriminate].
Qed.

(** X8: when the sample is not negative, the heartbeats of a tick carry
    timestamps that never go backwards, none earlier than the last input
    time and none later than one millisecond after [now]. *)
Theorem tick_timestamps_ordered (self : AFKWatcher) (system : System)
    (afk0 : bool) (e : TickEnv) (s : Q) :
  undisturbed 2 system e s ->
  (0 <= s)%Q ->
  exists ts,
    map call_timestamp (snd (tick self system afk0 e)) = map Some ts /\
    Forall (fun t => last_input e s <= t <= env_now e + td1ms) ts /\
    forall (i j : nat) (t1 t2 : Z),
      (i < j)%nat -> ts !! i = Some t1 -> ts !! j = Some t2 -> t1 <= t2.
Proof.
  intros Hu Hs. rewrite (tick_undisturbed _ _ _ _ _ Hu). cbn [snd].
  pose proof (timedelta_seconds_nonneg s Hs) as Hd.
  assert (Hli : last_input e s <= env_now e) by (unfold last_input; lia).
  assert (Hms : 0 < td1ms) by reflexivity.
  destruct (Bool.eqb afk0 (sample_is_afk self s)).
  - exists [if afk0 then env_now e else last_input e s]. split; [reflexivity|].
    split; [repeat constructor; destruct afk0; lia|].
    intros [|i] [|j] t1 t2 Hij H1 H2; cbn in *; try lia; discriminate.
  - exists [last_input e s;
            if afk0 then last_input e s + td1ms else env_now e].
    split; [reflexivity|].
    split; [repeat constructor; destruct afk0; lia|].
    intros [|[|i]] [|[|j]] t1 t2 Hij H1 H2; cbn in *;
      try lia; try discriminate.
    injection H1 as <-. injection H2 as <-. destruct afk0; lia.
Qed.

Lemma tick_timestamps_ordered_witness :
  exists ts,
    map call_timestamp
        (snd (tick scenario_watcher Linux false (quiet_env 4242 1010000000 310)))
      = map Some ts /\
    Forall (fun t => last_input (quiet_env 4242 1010000000 310) 310 <= t
                     <= env_now (quiet_env 4242 1010000000 310) + td1ms) ts /\
    forall (i j : nat) (t1 t2 : Z),
      (i < j)%nat -> ts !! i = Some t1 -> ts !! j = Some t2 -> t1 <= t2.
Proof.
  apply (tick_timestamps_ordered scenario_watcher Linux false
           (quiet_env 4242 1010000000 310) 310).
  - repeat split.
  - apply Qle_bool_iff. reflexivity.
Defined.

(** * Further properties of the start-up *)

Lemma Settings_init_inv (config_section : gmap string Q)
    (timeout_arg poll_time_arg : option Q) (st : Settings) :
  Settings_init config_section timeout_arg poll_time_arg = Return st ->
  py_or timeout_arg (getitem config_section "timeout") = Return (timeout st) /\
  py_or poll_time_arg (getitem config_section "poll_time")
    = Return (poll_time st) /\
  (poll_time st <= timeout st)%Q.
Proof.
  unfold Settings_init. intros H.
  destruct (py_or timeout_arg (getitem config_section "timeout")) as [t|x];
    [|discriminate H].
  destruct (py_or poll_time_arg (getitem config_section "poll_time")) as [p|x];
    [|discriminate H].
  cbn in H. destruct (Qle_bool p t) eqn:E; [|discriminate H].
  injection H as <-. cbn. repeat split. apply Qle_bool_iff. exact E.
Qed.

(** X9: a watcher that [AFKWatcher.__init__] returns is named after the
    client and its settings satisfy [poll_time <= timeout]; the pulsetime
    it will send, [timeout + poll_time], is therefore at least twice the
    poll time. *)
Theorem watcher_settings_invariant (toml : gmap string (gmap string Q))
    (client_name : string) (args : Args) (testing : bool) (w : AFKWatcher) :
  AFKWatcher_init toml client_name args testing = Return w ->
  bucketname w = client_name /\
  (poll_time (settings w) <= timeout (settings w))%Q /\
  (2 * poll_time (settings w)
   <= timeout (settings w) + poll_time (settings w))%Q.
Proof.
  unfold AFKWatcher_init. intros H.
  destruct (load_config toml testing) as [cfg|x]; [|discriminate H].
  cbn in H.
  destruct (Settings_init cfg (args_timeout args) (args_poll_time args))
    as [st|x] eqn:E; [|discriminate H].
  injection H as <-. cbn.
  destruct (Settings_init_inv _ _ _ _ E) as (_ & _ & Hle).
  split; [reflexivity|]. split; [exact Hle|].
  assert (H2 : (2 * poll_time st == poll_time st + poll_time st)%Q) by ring.
  rewrite H2. apply Qplus_le_l. exact Hle.
Qed.

Lemma watcher_settings_invariant_witness :
  bucketname {| settings := {| timeout := 20; poll_time := 1 |};
                bucketname := "sd-watcher-afk" |} = "sd-watcher-afk" /\
  (1 <= 20)%Q /\ (2 * 1 <= 20 + 1)%Q.
Proof.
  apply (watcher_settings_invariant default_config "sd-watcher-afk"
           {| args_timeout := None; args_poll_time := None |} true
           {| settings := {| timeout := 20; poll_time := 1 |};
              bucketname := "sd-watcher-afk" |}).
  reflexivity.
Defined.

(** X10: the configuration section is read only for an argument that is
    absent or zero. With such a timeout argument and no "timeout" key the
    construction raises [KeyError "timeout"] whatever the poll time is;
    with a resolved timeout, an absent or zero poll-time argument and no
    "poll_time" key it raises [KeyError "poll_time"]; with two non-zero
    arguments the section is never read and may be empty. *)
Theorem Settings_init_missing_key (config_section : gmap string Q)
    (timeout_arg poll_time_arg : option Q) :
  (truthy timeout_arg = false ->
   config_section !! "timeout" = None ->
   Settings_init config_section timeout_arg poll_time_arg
     = Raise (KeyError "timeout")) /\
  (truthy timeout_arg = true \/ is_Some (config_section !! "timeout") ->
   truthy poll_time_arg = false ->
   config_section !! "poll_time" = None ->
   Settings_init config_section timeout_arg poll_time_arg
     = Raise (KeyError "poll_time")) /\
  (truthy timeout_arg = true ->
   truthy poll_time_arg = true ->
   Settings_init config_section timeout_arg poll_time_arg
     = Settings_init ∅ timeout_arg poll_time_arg).
Proof.
  assert (Hfalsy : forall x d, truthy x = false -> py_or x d = d).
  { intros [q|] d H; unfold py_or; [rewrite H|]; reflexivity. }
  assert (Htruthy : forall x d, truthy x = true -> exists q, py_or x d = Return q).
  { intros [q|] d H; [|discriminate H].
    exists q. unfold py_or. rewrite H. reflexivity. }
  split; [|split].
  - intros Ht Hk. unfold Settings_init, getitem.
    rewrite (Hfalsy _ _ Ht), Hk. reflexivity.
  - intros Ht Hp Hk. unfold Settings_init.
    assert (Hres : exists tv, py_or timeout_arg (getitem config_section "timeout")
                              = Return tv).
    { destruct (truthy timeout_arg) eqn:E; [apply Htruthy; exact E|].
      destruct Ht as [Ht|[tv Ht]]; [discriminate Ht|].
      exists tv. rewrite (Hfalsy _ _ E). unfold getitem. rewrite Ht.
      reflexivity. }
    destruct Hres as [tv ->]. cbn [mbind result_bind].
    rewrite (Hfalsy _ _ Hp). unfold getitem. rewrite Hk. reflexivity.
  - intros Ht Hp. unfold Settings_init.
    destruct timeout_arg as [t|]; [|discriminate Ht].
    destruct poll_time_arg as [p|]; [|discriminate Hp].
    unfold py_or. rewrite Ht, Hp. reflexivity.
Qed.

Lemma Settings_init_missing_key_witness :
  Settings_init (<["poll_time" := 5%Q]> ∅) (Some 0%Q) (Some 10%Q)
    = Raise (KeyError "timeout") /\
  Settings_init (<["timeout" := 300%Q]> ∅) None None
    = Raise (KeyError "poll_time") /\
  Settings_init (section_of 300 5) (Some 60%Q) (Some 2%Q)
    = Settings_init ∅ (Some 60%Q) (Some 2%Q).
Proof.
  split; [|split].
  - apply (proj1 (Settings_init_missing_key (<["poll_time" := 5%Q]> ∅)
                    (Some 0%Q) (Some 10%Q))); reflexivity.
  - apply (proj1 (proj2 (Settings_init_missing_key (<["timeout" := 300%Q]> ∅)
                           None None))); try reflexivity.
    right. exists 300%Q. reflexivity.
  - apply (proj2 (proj2 (Settings_init_missing_key (section_of 300 5)
                           (Some 60%Q) (Some 2%Q)))); reflexivity.
Defined.

(** X11: when the loaded configuration has no table for the mode
    ("sd-watcher-afk", or "sd-watcher-afk-testing" when testing), [main]
    raises [KeyError] with the name of that table, whatever the
    arguments, before any client call. *)
Theorem main_missing_section (toml : gmap string (gmap string Q))
    (client_name : string) (args : Args) (testing : bool) (system : System)
    (envs : list TickEnv) :
  toml !! (if testing then "sd-watcher-afk-testing" else "sd-watcher-afk")
    = None ->
  main toml client_name args testing system envs
    = Raise (KeyError (if testing then "sd-watcher-afk-testing"
                       else "sd-watcher-afk")).
Proof.
  intros H. unfold main, AFKWatcher_init.
  destruct testing.
  - change (load_config toml true)
      with (getitem toml "sd-watcher-afk-testing").
    unfold getitem. rewrite H. reflexivity.
  - change (load_config toml false) with (getitem toml "sd-watcher-afk").
    unfold getitem. rewrite H. reflexivity.
Qed.

Lemma main_missing_section_witness :
  main (<["sd-watcher-afk" := section_of 300 5]> ∅) "sd-watcher-afk"
       {| args_timeout := Some 300%Q; args_poll_time := Some 5%Q |}
       true Linux [quiet_env 4242 1000000000 0]
    = Raise (KeyError "sd-watcher-afk-testing").
Proof.
  apply (main_missing_section (<["sd-watcher-afk" := section_of 300 5]> ∅)
           "sd-watcher-afk"
           {| args_timeout := Some 300%Q; args_poll_time := Some 5%Q |}
           true Linux [quiet_env 4242 1000000000 0]).
  reflexivity.
Defined.

(** X12: with the default configuration and no overriding argument (absent
    or zero) the watcher is built in both modes: timeout 300 and poll time
    5 normally, timeout 20 and poll time 1 when testing. *)
Theorem default_config_is_valid (client_name : string) (args : Args)
    (testing : bool) :
  truthy (args_timeout args) = false ->
  truthy (args_poll_time args) = false ->
  AFKWatcher_init default_config client_name args testing
    = Return {| settings := if testing
                            then {| timeout := 20; poll_time := 1 |}
                            else {| timeout := 300; poll_time := 5 |};
                bucketname := client_name |}.
Proof.
  intros Ht Hp. unfold AFKWatcher_init, Settings_init.
  assert (Hfalsy : forall x d, truthy x = false -> py_or x d = d).
  { intros [q|] d H; unfold py_or; [rewrite H|]; reflexivity. }
  destruct testing.
  - change (load_config default_config true)
      with (Return (A := gmap string Q) (section_of 20 1)).
    cbn [mbind result_bind]. rewrite !Hfalsy by assumption. reflexivity.
  - change (load_config default_config false)
      with (Return (A := gmap string Q) (section_of 300 5)).
    cbn [mbind result_bind]. rewrite !Hfalsy by assumption. reflexivity.
Qed.

Lemma default_config_is_valid_witness :
  AFKWatcher_init default_config "sd-watcher-afk"
    {| args_timeout := Some 0%Q; args_poll_time := None |} true
  = Return {| settings := {| timeout := 20; poll_time := 1 |};
              bucketname := "sd-watcher-afk" |}.
Proof.
  apply (default_config_is_valid "sd-watcher-afk"
           {| args_timeout := Some 0%Q; args_poll_time := None |} true);
    reflexivity.
Defined.

(** X13: on a platform whose name is none of "Windows", "Darwin" and
    "Linux" (the comparison is exact, so "linux" is none of them) the
    process raises "Unsupported platform: <name>" at import: the
    configuration is not read, no watcher is built and no client call is
    made. *)
Theorem unsupported_platform (name : string)
    (toml : gmap string (gmap string Q)) (client_name : string)
    (args : Args) (testing : bool) (envs : list TickEnv) :
  name <> "Windows" -> name <> "Darwin" -> name <> "Linux" ->
  program name toml client_name args testing envs
    = Raise (OtherException ("Unsupported platform: " +:+ name)).
Proof.
  intros Hw Hd Hl. unfold program, select_platform.
  apply String.eqb_neq in Hw, Hd, Hl. rewrite Hw, Hd, Hl. reflexivity.
Qed.

Lemma unsupported_platform_witness :
  program "linux" default_config "sd-watcher-afk"
    {| args_timeout := None; args_poll_time := None |} false
    [quiet_env 4242 1000000000 0]
  = Raise (OtherException "Unsupported platform: linux").
Proof.
  apply (unsupported_platform "linux" default_config "sd-watcher-afk"
           {| args_timeout := None; args_poll_time := None |} false
           [quiet_env 4242 1000000000 0]); discriminate.
Defined.

(** * Further properties of the listeners *)

(** ** Keyboard *)

Lemma keyboard_run_presses (ops : list KeyboardOp) :
  forall (self : KeyboardListener) (n : Z),
    kb_event_data self !! "presses" = Some n ->
    exists self' snaps,
      keyboard_run self ops = Return (self', snaps) /\
      (exists n', kb_event_data self' !! "presses" = Some n' /\
                  counter_sum "presses" snaps + n' = n + presses_in ops) /\
      length snaps = length (List.filter (fun op => match op with
                                                    | KbDrain => true
                                                    | _ => false
                                                    end) ops).
Proof.
  induction ops as [|[[|]|] ops IH]; intros self n Hn.
  - exists self, []. split; [reflexivity|]. split; [|reflexivity].
    exists n. split; [exact Hn | cbn; lia].
  - (* press *)
    destruct (IH {| kb_new_event := true;
                    kb_event_data := <["presses" := n + 1]> (kb_event_data self) |}
                 (n + 1)) as (self' & snaps & Hrun & (n' & Hn' & Hsum) & Hlen).
    { apply lookup_insert_eq. }
    exists self', snaps. split; [|split].
    + cbn [keyboard_run keyboard_callback]. unfold on_press, getitem.
      rewrite Hn. cbn [mbind result_bind mret result_ret]. exact Hrun.
    + exists n'. split; [exact Hn'|]. cbn [presses_in fold_right] in *.
      fold (presses_in ops). lia.
    + exact Hlen.
  - (* release *)
    destruct (IH self n Hn) as (self' & snaps & Hrun & Hrest).
    exists self', snaps. split; [exact Hrun | exact Hrest].
  - (* drain *)
    destruct (IH {| kb_new_event := false; kb_event_data := keyboard_defaults |} 0)
      as (self' & snaps & Hrun & (n' & Hn' & Hsum) & Hlen).
    { reflexivity. }
    exists self', (kb_event_data self :: snaps). split; [|split].
    + cbn [keyboard_run]. destruct self as [flag d]. cbn in *.
      unfold next_event. cbn. rewrite Hrun. reflexivity.
    + exists n'. split; [exact Hn'|].
      cbn [counter_sum fold_right presses_in] in *.
      fold (counter_sum "presses" snaps). fold (presses_in ops).
      unfold counter. rewrite Hn. cbn [default from_option id]. lia.
    + cbn [List.filter length]. rewrite Hlen. reflexivity.
Qed.

(** X14: starting from a fresh keyboard listener, any interleaving of
    callbacks and drains runs without [KeyError]; the presses returned by
    the drains plus the presses still pending equal the number of press
    callbacks, so no press is lost or counted twice and releases are never
    counted; each drain returns one snapshot. *)
Theorem keyboard_presses_conserved (ops : list KeyboardOp) :
  exists self' snaps,
    keyboard_run KeyboardListener_init ops = Return (self', snaps) /\
    counter_sum "presses" snaps + counter "presses" (event_data self')
      = presses_in ops /\
    length snaps = length (List.filter (fun op => match op with
                                                  | KbDrain => true
                                                  | _ => false
                                                  end) ops).
Proof.
  destruct (keyboard_run_presses ops KeyboardListener_init 0 eq_refl)
    as (self' & snaps & Hrun & (n' & Hn' & Hsum) & Hlen).
  exists self', snaps. split; [exact Hrun|]. split; [|exact Hlen].
  unfold counter. cbn [event_data KeyboardListener_factory].
  rewrite Hn'. cbn [default from_option id]. lia.
Qed.

Lemma keyboard_burst_from (cs : list KeyboardCallback) :
  forall (flag : bool) (d : gmap string Z) (n : Z),
    d !! "presses" = Some n ->
    keyboard_burst {| kb_new_event := flag; kb_event_data := d |} cs
      = Return {| kb_new_event := flag || existsb is_press cs;
                  kb_event_data :=
                    <["presses" := n + Z.of_nat (length (List.filter is_press cs))]> d |}.
Proof.
  induction cs as [|[|] cs IH]; intros flag d n Hn.
  - cbn. rewrite orb_false_r, Z.add_0_r, (insert_id d _ _ Hn). reflexivity.
  - cbn [keyboard_burst keyboard_callback]. unfold on_press, getitem.
    cbn [kb_event_data]. rewrite Hn. cbn [mbind result_bind mret result_ret].
    rewrite (IH true (<["presses" := n + 1]> d) (n + 1))
      by apply lookup_insert_eq.
    rewrite insert_insert_eq. cbn [existsb is_press List.filter length orb].
    rewrite orb_true_r. do 3 f_equal. lia.
  - cbn [keyboard_burst keyboard_callback mbind result_bind].
    unfold on_release. rewrite (IH flag d n Hn). reflexivity.
Qed.

(** X15: after a burst of callbacks on a fresh keyboard listener the flag
    is set exactly when the burst holds a press, and the only counter,
    "presses", is the number of presses in the burst: a release changes
    nothing. *)
Theorem keyboard_burst_counts_presses (cs : list KeyboardCallback) :
  keyboard_burst KeyboardListener_init cs
    = Return {| kb_new_event := existsb is_press cs;
                kb_event_data :=
                  <["presses" := Z.of_nat (length (List.filter is_press cs))]> ∅ |}.
Proof.
  unfold KeyboardListener_init. cbn [_reset_data KeyboardListener_factory kb_new_event].
  rewrite (keyboard_burst_from cs false keyboard_defaults 0 eq_refl).
  unfold keyboard_defaults. rewrite insert_insert_eq. reflexivity.
Qed.

(** ** Mouse *)

Lemma counter_dd_add (d : gmap string Z) (k : string) (v : Z) :
  counter k (dd_add d k v) = counter k d + v.
Proof. unfold counter. rewrite dd_add_lookup. reflexivity. Qed.

Lemma counter_dd_add_ne (d : gmap string Z) (k k' : string) (v : Z) :
  k <> k' -> counter k' (dd_add d k v) = counter k' d.
Proof. intros H. unfold counter. rewrite dd_add_lookup_ne by exact H. reflexivity. Qed.

Lemma on_move_counters (self : MouseListener) (x y : Z) :
  let d := ms_event_data self in
  let d' := ms_event_data (on_move self x y) in
  counter "deltaX" d'
    = counter "deltaX" d
      + match pos self with None => 0 | Some q => Z.abs (fst q - x) end /\
  counter "deltaY" d'
    = counter "deltaY" d
      + match pos self with None => 0 | Some q => Z.abs (snd q - y) end /\
  counter "clicks" d' = counter "clicks" d /\
  counter "scrollX" d' = counter "scrollX" d /\
  counter "scrollY" d' = counter "scrollY" d /\
  pos (on_move self x y) = Some (x, y).
Proof.
  unfold on_move. cbn [ms_event_data pos]. repeat first [ rewrite counter_dd_add
               | rewrite counter_dd_add_ne by discriminate ].
  destruct (pos self) as [[px py]|]; cbn [fst snd];
    rewrite ?Z.sub_diag; repeat split; cbn; lia.
Qed.

Lemma on_click_counters (self : MouseListener) (x y : Z) (down : bool) :
  let d := ms_event_data self in
  let d' := ms_event_data (on_click self x y tt down) in
  counter "deltaX" d' = counter "deltaX" d /\
  counter "deltaY" d' = counter "deltaY" d /\
  counter "clicks" d' = counter "clicks" d + (if down then 1 else 0) /\
  counter "scrollX" d' = counter "scrollX" d /\
  counter "scrollY" d' = counter "scrollY" d /\
  pos (on_click self x y tt down) = pos self.
Proof.
  unfold on_click. destruct down; cbn [ms_event_data pos];
    repeat first [ rewrite counter_dd_add
                 | rewrite counter_dd_add_ne by discriminate ];
    repeat split; lia.
Qed.

Lemma on_scroll_counters (self : MouseListener) (x y sx sy : Z) :
  let d := ms_event_data self in
  let d' := ms_event_data (on_scroll self x y sx sy) in
  counter "deltaX" d' = counter "deltaX" d /\
  counter "deltaY" d' = counter "deltaY" d /\
  counter "clicks" d' = counter "clicks" d /\
  counter "scrollX" d' = counter "scrollX" d + Z.abs sx /\
  counter "scrollY" d' = counter "scrollY" d + Z.abs sy /\
  pos (on_scroll self x y sx sy) = pos self.
Proof.
  unfold on_scroll. cbn [ms_event_data pos]. repeat first [ rewrite counter_dd_add
               | rewrite counter_dd_add_ne by discriminate ]. repeat split.
Qed.

Lemma counter_sum_cons (k : string) (d : gmap string Z)
    (snaps : list (gmap string Z)) :
  counter_sum k (d :: snaps) = counter k d + counter_sum k snaps.
Proof. reflexivity. Qed.

Lemma mouse_run_counters (ops : list MouseOp) :
  forall self : MouseListener,
    let r := mouse_run self ops in
    let total := fun k =>
      counter_sum k (snd r) + counter k (ms_event_data (fst r))
      - counter k (ms_event_data self) in
    total "deltaX" = travel fst (pos self) ops /\
    total "deltaY" = travel snd (pos self) ops /\
    total "clicks" = clicks_in ops /\
    total "scrollX" = scroll_in fst ops /\
    total "scrollY" = scroll_in snd ops.
Proof.
  induction ops as [|[[x y|x y down|x y sx sy]|] ops IH]; intros self r total;
    subst r total; cbn beta.
  - cbn. repeat split; lia.
  - specialize (IH (on_move self x y)). cbn beta zeta in IH.
    destruct (on_move_counters self x y) as (Hx & Hy & Hc & Hsx & Hsy & Hp).
    cbn zeta in Hx, Hy, Hc, Hsx, Hsy.
    cbn [mouse_run mouse_callback travel clicks_in scroll_in fold_right].
    fold (clicks_in ops) (scroll_in fst ops) (scroll_in snd ops).
    rewrite Hp in IH. destruct IH as (I1 & I2 & I3 & I4 & I5).
    cbn [fst snd] in *. repeat split; lia.
  - specialize (IH (on_click self x y tt down)). cbn beta zeta in IH.
    destruct (on_click_counters self x y down) as (Hx & Hy & Hc & Hsx & Hsy & Hp).
    cbn zeta in Hx, Hy, Hc, Hsx, Hsy.
    cbn [mouse_run mouse_callback travel clicks_in scroll_in fold_right].
    fold (clicks_in ops) (scroll_in fst ops) (scroll_in snd ops).
    rewrite Hp in IH. destruct IH as (I1 & I2 & I3 & I4 & I5).
    destruct down; repeat split; lia.
  - specialize (IH (on_scroll self x y sx sy)). cbn beta zeta in IH.
    destruct (on_scroll_counters self x y sx sy) as (Hx & Hy & Hc & Hsx & Hsy & Hp).
    cbn zeta in Hx, Hy, Hc, Hsx, Hsy.
    cbn [mouse_run mouse_callback travel clicks_in scroll_in fold_right].
    fold (clicks_in ops) (scroll_in fst ops) (scroll_in snd ops).
    rewrite Hp in IH. destruct IH as (I1 & I2 & I3 & I4 & I5).
    cbn [fst snd] in *. repeat split; lia.
  - assert (Hr : mouse_run self (MsDrain :: ops)
                 = (fst (mouse_run (snd (next_event self)) ops),
                    ms_event_data self
                    :: snd (mouse_run (snd (next_event self)) ops)))
      by (destruct self; reflexivity).
    assert (Hd : ms_event_data (snd (next_event self)) = mouse_defaults)
      by (destruct self; reflexivity).
    assert (Hp : pos (snd (next_event self)) = pos self)
      by (destruct self; reflexivity).
    specialize (IH (snd (next_event self))). cbn beta zeta in IH.
    rewrite Hd, Hp in IH. rewrite Hr. cbn [fst snd].
    rewrite !counter_sum_cons.
    change (travel fst (pos self) (MsDrain :: ops))
      with (travel fst (pos self) ops).
    change (travel snd (pos self) (MsDrain :: ops))
      with (travel snd (pos self) ops).
    change (clicks_in (MsDrain :: ops)) with (clicks_in ops).
    change (scroll_in fst (MsDrain :: ops)) with (scroll_in fst ops).
    change (scroll_in snd (MsDrain :: ops)) with (scroll_in snd ops).
    destruct IH as (I1 & I2 & I3 & I4 & I5).
    change (counter "deltaX" mouse_defaults) with 0 in I1.
    change (counter "deltaY" mouse_defaults) with 0 in I2.
    change (counter "clicks" mouse_defaults) with 0 in I3.
    change (counter "scrollX" mouse_defaults) with 0 in I4.
    change (counter "scrollY" mouse_defaults) with 0 in I5.
    repeat split; lia.
Qed.

(** X16: over any interleaving of mouse callbacks and drains, the deltaX
    (deltaY) returned by the drains plus the amount still pending grows by
    exactly the distance travelled along that axis: the sum, over the
    moves, of the absolute difference with the position before it. The
    position survives a drain, so a move that follows a drain is measured
    from the last position seen before it; the first move ever adds 0. *)
Theorem mouse_travel_conserved (self : MouseListener) (ops : list MouseOp) :
  let r := mouse_run self ops in
  counter_sum "deltaX" (snd r) + counter "deltaX" (event_data (fst r))
    = counter "deltaX" (event_data self) + travel fst (pos self) ops /\
  counter_sum "deltaY" (snd r) + counter "deltaY" (event_data (fst r))
    = counter "deltaY" (event_data self) + travel snd (pos self) ops.
Proof.
  intros r. subst r.
  destruct (mouse_run_counters ops self) as (H1 & H2 & _).
  cbn [event_data MouseListener_factory]. split; lia.
Qed.

(** X17: over any interleaving of mouse callbacks and drains, the clicks
    returned by the drains plus those pending grow by the number of button
    presses (releases are not counted), and scrollX and scrollY by the sum
    of the absolute scroll amounts; moves change none of the three. *)
Theorem mouse_clicks_and_scroll_conserved (self : MouseListener)
    (ops : list MouseOp) :
  let r := mouse_run self ops in
  counter_sum "clicks" (snd r) + counter "clicks" (event_data (fst r))
    = counter "clicks" (event_data self) + clicks_in ops /\
  counter_sum "scrollX" (snd r) + counter "scrollX" (event_data (fst r))
    = counter "scrollX" (event_data self) + scroll_in fst ops /\
  counter_sum "scrollY" (snd r) + counter "scrollY" (event_data (fst r))
    = counter "scrollY" (event_data self) + scroll_in snd ops.
Proof.
  intros r. subst r.
  destruct (mouse_run_counters ops self) as (_ & _ & H3 & H4 & H5).
  cbn [event_data MouseListener_factory]. repeat split; lia.
Qed.

Lemma mouse_run_net (axis : Z * Z -> Z) (ops : list MouseOp) :
  forall (self : MouseListener) (q : Z * Z),
    pos self = Some q ->
    exists q',
      pos (fst (mouse_run self ops)) = Some q' /\
      Z.abs (axis q - axis q') <= travel axis (Some q) ops.
Proof.
  induction ops as [|[[x y|x y down|x y sx sy]|] ops IH]; intros self q Hq.
  - exists q. split; [exact Hq|]. cbn. rewrite Z.sub_diag. reflexivity.
  - destruct (IH (on_move self x y) (x, y) eq_refl) as (q' & Hq' & Hle).
    exists q'. split; [exact Hq'|].
    cbn [travel]. lia.
  - destruct (IH (on_click self x y tt down) q) as (q' & Hq' & Hle).
    { destruct down; exact Hq. }
    exists q'. split; [exact Hq' | exact Hle].
  - destruct (IH (on_scroll self x y sx sy) q Hq) as (q' & Hq' & Hle).
    exists q'. split; [exact Hq' | exact Hle].
  - destruct (IH (snd (next_event self)) q) as (q' & Hq' & Hle).
    { destruct self; exact Hq. }
    exists q'. split; [|exact Hle].
    destruct self; exact Hq'.
Qed.

(** X18: once the mouse has a known position, the deltaX (deltaY)
    accumulated over any interleaving of callbacks and drains is at least
    the absolute difference between the first and the last position on
    that axis: going back and forth is counted, not cancelled. *)
Theorem mouse_travel_at_least_net (self : MouseListener) (ops : list MouseOp)
    (q : Z * Z) :
  pos self = Some q ->
  let r := mouse_run self ops in
  exists q',
    pos (fst r) = Some q' /\
    Z.abs (fst q - fst q')
      <= counter_sum "deltaX" (snd r) + counter "deltaX" (event_data (fst r))
         - counter "deltaX" (event_data self) /\
    Z.abs (snd q - snd q')
      <= counter_sum "deltaY" (snd r) + counter "deltaY" (event_data (fst r))
         - counter "deltaY" (event_data self).
Proof.
  intros Hq r. subst r.
  destruct (mouse_run_net fst ops self q Hq) as (q1 & Hq1 & Hx).
  destruct (mouse_run_net snd ops self q Hq) as (q2 & Hq2 & Hy).
  assert (q2 = q1) by congruence. subst q2.
  destruct (mouse_run_counters ops self) as (H1 & H2 & _).
  rewrite Hq in H1, H2.
  exists q1. cbn [event_data MouseListener_factory].
  split; [exact Hq1|]. split; lia.
Qed.

Lemma mouse_travel_at_least_net_witness :
  exists q',
    pos (fst (mouse_run (on_move MouseListener_init 0 0)
                [MsCallback (Move 3 4); MsDrain; MsCallback (Move 1 4)]))
      = Some q' /\
    Z.abs (0 - fst q')
      <= counter_sum "deltaX"
           (snd (mouse_run (on_move MouseListener_init 0 0)
                   [MsCallback (Move 3 4); MsDrain; MsCallback (Move 1 4)]))
         + counter "deltaX"
             (event_data
                (fst (mouse_run (on_move MouseListener_init 0 0)
                        [MsCallback (Move 3 4); MsDrain; MsCallback (Move 1 4)])))
         - counter "deltaX" (event_data (on_move MouseListener_init 0 0)) /\
    Z.abs (0 - snd q')
      <= counter_sum "deltaY"
           (snd (mouse_run (on_move MouseListener_init 0 0)
                   [MsCallback (Move 3 4); MsDrain; MsCallback (Move 1 4)]))
         + counter "deltaY"
             (event_data
                (fst (mouse_run (on_move MouseListener_init 0 0)
                        [MsCallback (Move 3 4); MsDrain; MsCallback (Move 1 4)])))
         - counter "deltaY" (event_data (on_move MouseListener_init 0 0)).
Proof.
  apply (mouse_travel_at_least_net (on_move MouseListener_init 0 0)
           [MsCallback (Move 3 4); MsDrain; MsCallback (Move 1 4)] (0, 0)).
  reflexivity.
Defined.

Lemma mouse_callback_flag (self : MouseListener) (c : MouseCallback) :
  ms_new_event (mouse_callback self c) = ms_new_event self || wakes c.
Proof.
  destruct c as [x y|x y [|]|x y sx sy]; cbn;
    rewrite ?orb_true_r, ?orb_false_r; reflexivity.
Qed.

(** X19: after a burst of mouse callbacks the flag is set exactly when it
    was set before or the burst holds a move, a scroll or a button press;
    a move or a scroll of zero size sets it too, a button release never
    does. *)
Theorem mouse_flag_after_burst (self : MouseListener) (cs : list MouseCallback) :
  has_new_event (mouse_burst self cs) = has_new_event self || existsb wakes cs.
Proof.
  unfold mouse_burst, has_new_event. cbn [new_event MouseListener_factory].
  revert self. induction cs as [|c cs IH]; intros self.
  - cbn. rewrite orb_false_r. reflexivity.
  - cbn [fold_left existsb]. rewrite IH, mouse_callback_flag, orb_assoc.
    reflexivity.
Qed.

Lemma mouse_defaults_ok : mouse_counters_ok mouse_defaults.
Proof.
  intros k Hk. rewrite !elem_of_cons in Hk.
  destruct Hk as [->|[->|[->|[->|[->|Hk]]]]];
    try (exists 0; split; [reflexivity | lia]).
  apply elem_of_nil in Hk. contradiction.
Qed.

Lemma dd_add_ok (d : gmap string Z) (k : string) (v : Z) :
  0 <= v -> mouse_counters_ok d -> mouse_counters_ok (dd_add d k v).
Proof.
  intros Hv Hd k' Hk'. destruct (Hd k' Hk') as (v0 & Hv0 & Hpos).
  destruct (decide (k = k')) as [<-|Hne].
  - exists (v0 + v). rewrite dd_add_lookup, Hv0. split; [reflexivity | lia].
  - exists v0. rewrite dd_add_lookup_ne by exact Hne. split; assumption.
Qed.

Lemma mouse_callback_ok (self : MouseListener) (c : MouseCallback) :
  mouse_counters_ok (ms_event_data self) ->
  mouse_counters_ok (ms_event_data (mouse_callback self c)).
Proof.
  intros H. destruct c as [x y|x y [|]|x y sx sy]; cbn;
    repeat (apply dd_add_ok; [lia|]); exact H.
Qed.

Lemma mouse_run_ok (ops : list MouseOp) :
  forall self : MouseListener,
    mouse_counters_ok (ms_event_data self) ->
    Forall mouse_counters_ok (snd (mouse_run self ops)) /\
    mouse_counters_ok (ms_event_data (fst (mouse_run self ops))).
Proof.
  induction ops as [|[c|] ops IH]; intros self H.
  - split; [constructor | exact H].
  - apply (IH (mouse_callback self c)). apply mouse_callback_ok. exact H.
  - destruct self as [flag d p].
    destruct (IH {| ms_new_event := false; ms_event_data := mouse_defaults;
                    pos := p |} mouse_defaults_ok) as [Hs Hf].
    split; [constructor; [exact H | exact Hs] | exact Hf].
Qed.

(** X20: from a fresh mouse listener, through any interleaving of
    callbacks and drains, every snapshot a drain returns and the pending
    data hold all five counters (clicks, deltaX, deltaY, scrollX, scrollY)
    and none of them is ever negative. *)
Theorem mouse_counters_never_negative (ops : list MouseOp) :
  Forall mouse_counters_ok (snd (mouse_run MouseListener_init ops)) /\
  mouse_counters_ok (event_data (fst (mouse_run MouseListener_init ops))).
Proof.
  apply mouse_run_ok. exact mouse_defaults_ok.
Qed.

(** * Properties of the idle sources *)

Lemma total_seconds_zero : (total_seconds 0 == 0)%Q.
Proof. reflexivity. Qed.

Lemma total_seconds_plus (a b : Z) :
  (total_seconds (a + b) == total_seconds a + total_seconds b)%Q.
Proof. unfold total_seconds. rewrite inject_Z_plus. field. Qed.

Lemma unix_poll_cases (self : LastInputUnix) (now : Z) :
  let r := LastInputUnix_seconds_since_last_input self now in
  has_new_event (mouseListener (snd r)) = false /\
  has_new_event (keyboardListener (snd r)) = false /\
  (has_new_event (mouseListener self)
   || has_new_event (keyboardListener self) = true ->
   fst r = total_seconds (now - now) /\
   last_activity (snd r) = now /\
   event_data (mouseListener (snd r)) = mouse_defaults /\
   event_data (keyboardListener (snd r)) = keyboard_defaults /\
   pos (mouseListener (snd r)) = pos (mouseListener self)) /\
  (has_new_event (mouseListener self)
   || has_new_event (keyboardListener self) = false ->
   fst r = total_seconds (now - last_activity self) /\ snd r = self).
Proof.
  destruct self as [[mf md mp] [kf kd] l].
  unfold LastInputUnix_seconds_since_last_input.
  cbn [mouseListener keyboardListener last_activity has_new_event new_event
       MouseListener_factory KeyboardListener_factory ms_new_event kb_new_event].
  destruct mf, kf; cbn; repeat split; try discriminate.
Qed.

(** X21: a poll of the Linux idle source that finds the flag of either
    listener set returns 0 seconds whenever the input actually happened,
    takes [now] as the time of last activity and drains both listeners
    (flags cleared, counters back to their defaults, mouse position kept);
    a poll that finds no flag returns [now - last_activity] in seconds and
    changes nothing. After any poll neither listener has a new event. *)
Theorem unix_poll_detects_activity (self : LastInputUnix) (now : Z) :
  let r := LastInputUnix_seconds_since_last_input self now in
  has_new_event (mouseListener (snd r)) = false /\
  has_new_event (keyboardListener (snd r)) = false /\
  (has_new_event (mouseListener self)
   || has_new_event (keyboardListener self) = true ->
   (fst r == 0)%Q /\
   last_activity (snd r) = now /\
   event_data (mouseListener (snd r)) = mouse_defaults /\
   event_data (keyboardListener (snd r)) = keyboard_defaults /\
   pos (mouseListener (snd r)) = pos (mouseListener self)) /\
  (has_new_event (mouseListener self)
   || has_new_event (keyboardListener self) = false ->
   fst r = (inject_Z (now - last_activity self) / 1000000)%Q /\ snd r = self).
Proof.
  intros r. subst r.
  destruct (unix_poll_cases self now) as (H1 & H2 & H3 & H4).
  split; [exact H1|]. split; [exact H2|]. split.
  - intros Hf. destruct (H3 Hf) as (Hs & Hrest).
    split; [|exact Hrest].
    rewrite Hs, Z.sub_diag. exact total_seconds_zero.
  - exact H4.
Qed.

Lemma unix_poll_detects_activity_witness :
  (fst (LastInputUnix_seconds_since_last_input
          {| mouseListener := on_move MouseListener_init 3 4;
             keyboardListener := KeyboardListener_init;
             last_activity := 1000000000 |} 1600000000) == 0)%Q /\
  fst (LastInputUnix_seconds_since_last_input
         (LastInputUnix_init 1000000000) 1600000000)
    = (inject_Z 600000000 / 1000000)%Q.
Proof.
  split.
  - apply (proj1 (proj2 (proj2 (unix_poll_detects_activity
             {| mouseListener := on_move MouseListener_init 3 4;
                keyboardListener := KeyboardListener_init;
                last_activity := 1000000000 |} 1600000000)))).
    reflexivity.
  - apply (proj2 (proj2 (proj2 (unix_poll_detects_activity
             (LastInputUnix_init 1000000000) 1600000000)))).
    reflexivity.
Defined.

(** X22: two calls of the module-level [seconds_since_last_input] of
    unix.py with no callback between them: the instance is built by the
    first call if there was none and kept from then on, and the second
    call returns the first result plus the time elapsed between the two
    calls, with the time of last activity unchanged. *)
Theorem unix_idle_time_grows_with_clock (g : option LastInputUnix)
    (ctor_now now1 now2 : Z) :
  let r1 := unix_seconds_since_last_input g ctor_now now1 in
  let r2 := unix_seconds_since_last_input (snd r1) ctor_now now2 in
  (fst r2 == fst r1 + inject_Z (now2 - now1) / 1000000)%Q /\
  exists u1 u2,
    snd r1 = Some u1 /\ snd r2 = Some u2 /\
    last_activity u2 = last_activity u1 /\
    (g = None -> last_activity u1 = ctor_now).
Proof.
  intros r1 r2. subst r1 r2. unfold unix_seconds_since_last_input.
  set (u := match g with None => LastInputUnix_init ctor_now | Some u => u end).
  assert (Hg : g = None -> last_activity u = ctor_now).
  { intros ->. reflexivity. }
  assert (Hgf : g = None ->
                has_new_event (mouseListener u)
                || has_new_event (keyboardListener u) = false).
  { intros ->. reflexivity. }
  clearbody u.
  destruct (unix_poll_cases u now1) as (H1 & H2 & H3 & H4).
  destruct (LastInputUnix_seconds_since_last_input u now1) as [s1 u1] eqn:E1.
  cbn [fst snd] in *.
  assert (Hno : has_new_event (mouseListener u1)
                || has_new_event (keyboardListener u1) = false)
    by (rewrite H1, H2; reflexivity).
  destruct (unix_poll_cases u1 now2) as (_ & _ & _ & K4).
  destruct (K4 Hno) as (Ks & Ku).
  destruct (LastInputUnix_seconds_since_last_input u1 now2) as [s2 u2] eqn:E2.
  cbn [fst snd] in *. subst s2 u2.
  split.
  - change (inject_Z (now2 - now1) / 1000000)%Q with (total_seconds (now2 - now1)).
    destruct (has_new_event (mouseListener u)
              || has_new_event (keyboardListener u)) eqn:F.
    + destruct (H3 eq_refl) as (-> & -> & _).
      rewrite <- total_seconds_plus.
      replace (now1 - now1 + (now2 - now1)) with (now2 - now1) by lia.
      reflexivity.
    + destruct (H4 eq_refl) as (-> & ->).
      rewrite <- total_seconds_plus.
      replace (now1 - last_activity u + (now2 - now1))
        with (now2 - last_activity u) by lia.
      reflexivity.
  - exists u1, u1. repeat split.
    intros Hnone.
    destruct (has_new_event (mouseListener u)
              || has_new_event (keyboardListener u)) eqn:F.
    + discriminate (Hgf Hnone).
    + destruct (H4 eq_refl) as (_ & ->). exact (Hg Hnone).
Qed.

Lemma unix_idle_time_grows_with_clock_witness :
  (fst (unix_seconds_since_last_input
          (snd (unix_seconds_since_last_input None 1000000000 1005000000))
          1000000000 1010000000)
   == fst (unix_seconds_since_last_input None 1000000000 1005000000)
      + inject_Z (1010000000 - 1005000000) / 1000000)%Q.
Proof.
  exact (proj1 (unix_idle_time_grows_with_clock None 1000000000
                  1005000000 1010000000)).
Defined.

Lemma timedelta_seconds_milli (ms : Z) :
  timedelta_seconds (inject_Z ms / 1000) = ms * 1000.
Proof.
  unfold timedelta_seconds. apply round_half_even_whole.
  rewrite inject_Z_mult. field.
Qed.

(** X23: the Windows idle source raises [AssertionError] when
    [GetLastInputInfo] reports failure (returns 0); otherwise it returns
    the tick difference in seconds, [(tick_count - dwTime) / 1000], which
    [timedelta] turns back into exactly that many milliseconds. The
    difference is not reduced modulo 2^32: when the tick counter has
    wrapped below the last-input tick the sample is negative, and a
    watcher with a non-negative timeout then takes the user as not AFK. *)
Theorem windows_sample (tick_count api_result dwTime : Z) :
  (api_result = 0 ->
   windows_seconds_since_last_input tick_count api_result dwTime
     = Raise AssertionError) /\
  (api_result <> 0 ->
   exists s,
     windows_seconds_since_last_input tick_count api_result dwTime = Return s /\
     s = (inject_Z (tick_count - dwTime) / 1000)%Q /\
     timedelta_seconds s = (tick_count - dwTime) * 1000 /\
     (dwTime <= tick_count -> (0 <= s)%Q) /\
     (tick_count < dwTime ->
      (s < 0)%Q /\
      forall self : AFKWatcher,
        (0 <= timeout (settings self))%Q -> sample_is_afk self s = false)).
Proof.
  unfold windows_seconds_since_last_input, _getLastInputTick. split.
  - intros ->. reflexivity.
  - intros Hne. apply Z.eqb_neq in Hne. rewrite Z.eqb_sym in Hne. rewrite Hne.
    eexists. split; [reflexivity|]. split; [reflexivity|].
    split; [apply timedelta_seconds_milli|].
    assert (Hsign : forall d : Z,
               (0 <= d -> (0 <= inject_Z d / 1000)%Q) /\
               (d < 0 -> (inject_Z d / 1000 < 0)%Q)).
    { intros d. unfold Qdiv, Qmult, Qle, Qlt, inject_Z. cbn. split; lia. }
    split.
    + intros Hle. apply Hsign. lia.
    + intros Hlt.
      assert (Hneg : (inject_Z (tick_count - dwTime) / 1000 < 0)%Q)
        by (apply Hsign; lia).
      split; [exact Hneg|].
      intros self Ht. unfold sample_is_afk. apply Qle_bool_lt.
      exact (Qlt_le_trans _ _ _ Hneg Ht).
Qed.

Lemma windows_sample_witness :
  windows_seconds_since_last_input 5000 0 2000 = Raise AssertionError /\
  exists s,
    windows_seconds_since_last_input 1000 1 4294966000 = Return s /\
    (s < 0)%Q /\ sample_is_afk scenario_watcher s = false.
Proof.
  split.
  - apply (proj1 (windows_sample 5000 0 2000)). reflexivity.
  - destruct (proj2 (windows_sample 1000 1 4294966000)) as (s & Hs & _ & _ & _ & Hw);
      [discriminate|].
    exists s. split; [exact Hs|].
    assert (Hlt : 1000 < 4294966000) by lia.
    destruct (Hw Hlt) as [Hneg Hafk].
    split; [exact Hneg|]. apply Hafk. discriminate.
Defined.

(** * The Linux idle source driving the state machine *)

(** X24: on Linux, when either listener has seen input since the last
    poll, the sample is 0: a watcher that is AFK and has a positive
    timeout comes back to NotAFK on that tick, closing the afk period at
    [now] and opening the not-afk one at [now + 1 ms]; the return is dated
    at the poll, not at the input. *)
Theorem linux_input_ends_afk (self : AFKWatcher) (u : LastInputUnix)
    (local_now : Z) (e : TickEnv) :
  has_new_event (mouseListener u) || has_new_event (keyboardListener u) = true ->
  undisturbed 2 Linux e
    (fst (LastInputUnix_seconds_since_last_input u local_now)) ->
  (0 < timeout (settings self))%Q ->
  tick self Linux true e
    = (Return Continue, false,
       [ping_call self true (env_now e);
        ping_call self false (env_now e + td1ms)]).
Proof.
  intros Hf Hu Ht.
  destruct (unix_poll_cases u local_now) as (_ & _ & H3 & _).
  destruct (H3 Hf) as (Hs & _). cbn zeta in Hs.
  rewrite Hs, Z.sub_diag in Hu.
  rewrite (tick_no_longer_afk self Linux e (total_seconds 0) Hu).
  - unfold last_input, total_seconds.
    rewrite timedelta_seconds_micro, Z.sub_0_r. reflexivity.
  - rewrite total_seconds_zero. exact Ht.
Qed.

Lemma linux_input_ends_afk_witness :
  tick scenario_watcher Linux true
       {| env_ppid := 4242; env_now := 1020000000;
          env_sample :=
            Return (fst (LastInputUnix_seconds_since_last_input
                           {| mouseListener := on_move MouseListener_init 3 4;
                              keyboardListener := KeyboardListener_init;
                              last_activity := 1000000000 |} 1600000000));
          env_heartbeat := []; env_sleep := None |}
    = (Return Continue, false,
       [ping_call scenario_watcher true 1020000000;
        ping_call scenario_watcher false (1020000000 + td1ms)]).
Proof.
  apply (linux_input_ends_afk scenario_watcher
           {| mouseListener := on_move MouseListener_init 3 4;
              keyboardListener := KeyboardListener_init;
              last_activity := 1000000000 |} 1600000000
           {| env_ppid := 4242; env_now := 1020000000;
              env_sample :=
                Return (fst (LastInputUnix_seconds_since_last_input
                               {| mouseListener := on_move MouseListener_init 3 4;
                                  keyboardListener := KeyboardListener_init;
                                  last_activity := 1000000000 |} 1600000000));
              env_heartbeat := []; env_sleep := None |}).
  - reflexivity.
  - repeat split.
  - apply Qltb_lt. reflexivity.
Defined.
